(** * kits19cnn.io.dataset_onthefly: on-the-fly slice datasets

    A shallow embedding of [SliceDatasetOnTheFly] and
    [PseudoSliceDatasetOnTheFly] (src/kits19cnn/io/dataset_onthefly.py).

    The Python objects become records, the methods become computations in
    a state-and-exception monad over the dataset object and numpy's global
    random state, and the storage directory is a read-only table from
    paths to the 2D arrays saved there. *)

From Stdlib Require Import ZArith List String Ascii Bool Lia PeanoNat Floats.
From Stdlib Require Import DecimalString.
Import ListNotations.

(** [length] is the length of a list throughout. *)
Abbreviation length := Datatypes.length.

Set Implicit Arguments.
Set Warnings "-inexact-float".

(** ** Python values used by the datasets *)

(** The exceptions the code can raise, with the data their messages carry. *)
Inductive exn : Type :=
| AssertionError (msg : string)
| IndexError (idx : Z) (size : nat)
| KeyError (key : string)
| ValueError (msg : string)
| FileNotFoundError (path : string)
| TypeError (msg : string)
| AttributeError (msg : string)
| OverflowError (msg : string)
| Raised (e : string).

(** A [dict] with string keys, in insertion order. *)
Definition dict (V : Type) : Type := list (string * V).

Fixpoint dict_get {V : Type} (d : dict V) (k : string) : option V :=
  match d with
  | [] => None
  | (k', v) :: rest => if String.eqb k' k then Some v else dict_get rest k
  end.

Definition keys {V : Type} (d : dict V) : list string := map fst d.

(** [pos_slice_dict]: case -> class label -> slice indices
    (the content of [slice_indices.json]). *)
Definition catalog : Type := dict (dict (list Z)).

(** The integers numpy can convert to an index (a signed 64-bit
    integer). *)
Definition fits_index (idx : Z) : bool :=
  ((- 2 ^ 63 <=? idx) && (idx <? 2 ^ 63))%Z.

(** [a[idx]] on a one-dimensional array: negative indices count from the
    end; outside [-len, len) an index that fits the index type raises
    [IndexError], and one that does not fit raises [OverflowError] (the
    conversion of the Python integer fails).  An array has fewer than 2^63
    entries, so an index inside [-len, len) always fits. *)
Definition seq_getitem {A : Type} (a : list A) (idx : Z) : exn + A :=
  let n := Z.of_nat (length a) in
  if ((idx <? - n) || (n <=? idx))%Z then
    if fits_index idx then inl (IndexError idx (length a))
    else inl (OverflowError "Python int too large to convert to C long")
  else
    match nth_error a (Z.to_nat (if (idx <? 0)%Z then idx + n else idx)) with
    | Some x => inr x
    | None => inl (IndexError idx (length a))
    end.

(** [range(lo, hi)] and [enumerate]. *)
Definition py_range (lo hi : Z) : list Z :=
  map (fun k => (lo + Z.of_nat k)%Z) (seq 0 (Z.to_nat (hi - lo))).

Definition enumerate {A : Type} (l : list A) : list (nat * A) :=
  combine (seq 0 (length l)) l.

(** [os.path.join] for two components (posixpath). *)
Definition startswith_sep (s : string) : bool :=
  match s with
  | String c _ => Ascii.eqb c "/"
  | EmptyString => false
  end.

Fixpoint endswith_sep (s : string) : bool :=
  match s with
  | EmptyString => false
  | String c EmptyString => Ascii.eqb c "/"
  | String _ rest => endswith_sep rest
  end.

Definition join (a b : string) : string :=
  if startswith_sep b then b
  else if (String.eqb a "" || endswith_sep a)%bool then (a ++ b)%string
  else (a ++ "/" ++ b)%string.

(** Element types of arrays and tensors. *)
Inductive dtype : Type :=
| Bool8 | UInt8 | Int16 | Int32 | Int64 | Float32 | Float64.

Definition dtype_eqb (a b : dtype) : bool :=
  match a, b with
  | Bool8, Bool8 | UInt8, UInt8 | Int16, Int16 | Int32, Int32
  | Int64, Int64 | Float32, Float32 | Float64, Float64 => true
  | _, _ => false
  end.

(** The messages of the two assertions of the constructors. *)
Definition sum_message : string :=
  "The sum of the sampling distribution probabilities should be 1.".

Definition odd_message : string :=
  "`num_pseudo_slices` must be odd. i.e. 7 -> 3 above and 3 below".

(** ** numpy's argument checks for [np.random.choice(a, p=p)] *)

Definition kahan_step (st : float * float) (d : float) : float * float :=
  let '(sum, c) := st in
  let y := (d - c)%float in
  let t := (sum + y)%float in
  (t, ((t - sum) - y)%float).

(** [kahan_sum] of mtrand: compensated summation starting from the first
    entry. *)
Definition kahan_sum (p : list float) : float :=
  match p with
  | [] => 0%float
  | x :: rest => fst (fold_left kahan_step rest (x, 0%float))
  end.

(** [sqrt(finfo(float64).eps)], that is 2^-26. *)
Definition atol : float := 0x1p-26%float.

Definition choice_p_check (pop_size : nat) (p : list float) : option exn :=
  if Nat.eqb pop_size 0 then
    Some (ValueError "'a' cannot be empty unless no samples are taken")
  else if negb (Nat.eqb (length p) pop_size) then
    Some (ValueError "'a' and 'p' must have same size")
  else if PrimFloat.is_nan (kahan_sum p) then
    Some (ValueError "probabilities contain NaN")
  else if existsb (fun x => (x <? 0)%float) p then
    Some (ValueError "probabilities are not non-negative")
  else if (atol <? PrimFloat.abs (kahan_sum p - 1))%float then
    Some (ValueError "probabilities do not sum to 1")
  else None.

(** ** The global random state of numpy

    numpy is not part of the repository.  Its generator is an interface:
    the index drawn by a weighted choice over [p] (inverse CDF of a uniform
    sample) and the index drawn by a uniform choice among [n] entries
    ([randint(0, n)]), each returning the next state.  The laws are the
    ones numpy guarantees: a drawn index is in range, and an entry of
    probability zero is never drawn. *)
Class RandomSource (G : Type) : Type := {
  weighted_index : list float -> G -> nat * G;
  uniform_index : nat -> G -> nat * G;
  weighted_index_range : forall p g,
    p <> [] -> fst (weighted_index p g) < length p;
  weighted_index_support : forall p g x,
    choice_p_check (length p) p = None ->
    nth_error p (fst (weighted_index p g)) = Some x ->
    (0 <? x)%float = true;
  uniform_index_range : forall n g,
    0 < n -> fst (uniform_index n g) < n
}.

Section Dataset.

(** Pixel values, with the zero [np.zeros] fills with and the conversion
    of a value from one element type to another. *)
Variable scalar : Type.
Variable zero : scalar.
Variable astype : dtype -> dtype -> scalar -> scalar.

(** [np.sum] over a list of floats (the summation order is numpy's). *)
Variable np_sum : list float -> float.

(** [parse_slice_idx_to_str] of [kits19cnn.io.preprocess], imported by
    the module; its definition is outside the file. *)
Variable parse_slice_idx_to_str : Z -> string.

(** A 2D array as [np.load] returns it for a slice file. *)
Record array2 : Type := {
  a2_dtype : dtype;
  a2_rows : nat;
  a2_cols : nat;
  a2_at : nat -> nat -> scalar
}.

(** A channels-last array of shape (rows, cols, chans); also the payload
    of a tensor. *)
Record array3 : Type := {
  a3_dtype : dtype;
  a3_rows : nat;
  a3_cols : nat;
  a3_chans : nat;
  a3_at : nat -> nat -> nat -> scalar
}.

(** The storage directory: the array saved under each path, if any. *)
Variable disk : string -> option array2.

(** [a[:, :, None]] *)
Definition expand_last (a : array2) : array3 :=
  {| a3_dtype := a2_dtype a;
     a3_rows := a2_rows a;
     a3_cols := a2_cols a;
     a3_chans := 1;
     a3_at := fun i j _ => a2_at a i j |}.

(** [np.zeros((rows, cols, chans))] *)
Definition np_zeros (rows cols chans : nat) : array3 :=
  {| a3_dtype := Float64;
     a3_rows := rows;
     a3_cols := cols;
     a3_chans := chans;
     a3_at := fun _ _ _ => zero |}.

(** Broadcasting of one axis of the assigned array onto the target. *)
Definition axis_fits (src dst : nat) : bool :=
  (Nat.eqb src dst || Nat.eqb src 1)%bool.

Definition axis_index (src dst i : nat) : nat :=
  if Nat.eqb src dst then i else 0.

(** [x[:, :, idx] = b]: the values of [b], broadcast to (rows, cols) and
    converted to the element type of [x], replace channel [idx]. *)
Definition setitem_channel (x : array3) (idx : nat) (b : array2)
  : exn + array3 :=
  if negb (idx <? a3_chans x) then inl (IndexError (Z.of_nat idx) (a3_chans x))
  else if negb (axis_fits (a2_rows b) (a3_rows x)
                && axis_fits (a2_cols b) (a3_cols x))%bool then
    inl (ValueError "could not broadcast input array")
  else
    inr {| a3_dtype := a3_dtype x;
           a3_rows := a3_rows x;
           a3_cols := a3_cols x;
           a3_chans := a3_chans x;
           a3_at := fun i j k =>
             if Nat.eqb k idx then
               astype (a2_dtype b) (a3_dtype x)
                 (a2_at b (axis_index (a2_rows b) (a3_rows x) i)
                          (axis_index (a2_cols b) (a3_cols x) j))
             else a3_at x i j k |}.

(** What flows through the transform pipeline: a numpy array, a torch
    tensor, or some other Python object. *)
Inductive pyval : Type :=
| NdArray (a : array3)
| Tensor (t : array3)
| PyObject (repr : string).

(** A transform or preprocessing stage, called as [f(image=x, mask=y)]:
    it returns a dict or raises. *)
Definition callable : Type := pyval -> pyval -> string + dict pyval.

(** The attributes of a dataset object.  [num_pseudo_slices] is present
    on instances of [PseudoSliceDatasetOnTheFly] only. *)
Record dataset : Type := {
  im_ids : list string;
  in_dir : string;
  pos_slice_dict : catalog;
  transforms : option callable;
  preprocessing : option callable;
  sampling_distribution : list float;
  classes : list string;
  num_pseudo_slices : option Z
}.

Definition set_classes (c : list string) (d : dataset) : dataset :=
  {| im_ids := im_ids d;
     in_dir := in_dir d;
     pos_slice_dict := pos_slice_dict d;
     transforms := transforms d;
     preprocessing := preprocessing d;
     sampling_distribution := sampling_distribution d;
     classes := c;
     num_pseudo_slices := num_pseudo_slices d |}.

Definition set_num_pseudo_slices (n : option Z) (d : dataset) : dataset :=
  {| im_ids := im_ids d;
     in_dir := in_dir d;
     pos_slice_dict := pos_slice_dict d;
     transforms := transforms d;
     preprocessing := preprocessing d;
     sampling_distribution := sampling_distribution d;
     classes := classes d;
     num_pseudo_slices := n |}.

(** ** The monad of the methods *)

Variable G : Type.
Context {RS : RandomSource G}.

(** What a method can read and change: the object it is called on and
    the process-wide random state. *)
Record world : Type := {
  self : dataset;
  random_state : G
}.

Definition M (A : Type) : Type := world -> (exn + A) * world.

Definition ret {A : Type} (a : A) : M A := fun w => (inr a, w).

Definition raise {A : Type} (e : exn) : M A := fun w => (inl e, w).

Definition bind {A B : Type} (m : M A) (k : A -> M B) : M B :=
  fun w =>
    match m w with
    | (inl e, w') => (inl e, w')
    | (inr a, w') => k a w'
    end.

Definition lift {A : Type} (r : exn + A) : M A := fun w => (r, w).

(** [self.f] *)
Definition attr {A : Type} (f : dataset -> A) : M A :=
  fun w => (inr (f (self w)), w).

(** [self.f = v] *)
Definition assign (upd : dataset -> dataset) : M unit :=
  fun w => (inr tt, {| self := upd (self w); random_state := random_state w |}).

(** One draw from the random state. *)
Definition draw {A : Type} (f : G -> A * G) : M A :=
  fun w =>
    let (a, g) := f (random_state w) in
    (inr a, {| self := self w; random_state := g |}).

Notation "x <- m ;; k" := (bind m (fun x => k))
  (at level 61, m at next level, right associativity).
Notation "' pat <- m ;; k" := (bind m (fun x => match x with pat => k end))
  (at level 61, pat pattern, m at next level, right associativity).

Fixpoint for_each {A S : Type} (body : S -> A -> M S) (l : list A) (s : S)
  : M S :=
  match l with
  | [] => ret s
  | a :: rest => s' <- body s a;; for_each body rest s'
  end.

(** [d[k]] *)
Definition dict_getitem {V : Type} (d : dict V) (k : string) : M V :=
  match dict_get d k with
  | Some v => ret v
  | None => raise (KeyError k)
  end.

(** [np.load(path)] and [os.path.isfile(path)] *)
Definition np_load (path : string) : M array2 :=
  match disk path with
  | Some a => ret a
  | None => raise (FileNotFoundError path)
  end.

Definition isfile (path : string) : bool :=
  match disk path with
  | Some _ => true
  | None => false
  end.

(** [np.random.choice(a, p=p)] *)
Definition np_random_choice_p (a : list string) (p : list float) : M string :=
  match choice_p_check (length a) p with
  | Some e => raise e
  | None => k <- draw (weighted_index p);; ret (nth k a ""%string)
  end.

(** [np.random.choice(a)] *)
Definition np_random_choice (a : list Z) : M Z :=
  if Nat.eqb (length a) 0 then
    raise (ValueError "'a' cannot be empty unless no samples are taken")
  else k <- draw (uniform_index (length a));; ret (nth k a 0%Z).

(** ** SliceDatasetOnTheFly *)

(** The class labels of the first entry of the catalog. *)
Definition first_entry_classes (d : catalog) : exn + list string :=
  match keys d with
  | [] => inl (IndexError 0 0)
  | dummy_key :: _ =>
      match dict_get d dummy_key with
      | Some dummy_value => inr (keys dummy_value)
      | None => inl (KeyError dummy_key)
      end
  end.

Definition log_class_indices : M unit :=
  d <- attr pos_slice_dict;;
  c <- lift (first_entry_classes d);;
  assign (set_classes c).

Definition default_sampling_distribution : list float :=
  [0.33%float; 0.33%float; 0.34%float].

(** [SliceDatasetOnTheFly.__init__]: the object it builds, or the
    exception that leaves it. *)
Definition slice_init (im_ids : list string) (in_dir : string)
    (pos_slice_dict : catalog) (transforms preprocessing : option callable)
    (sampling_distribution : list float) : exn + dataset :=
  if negb (np_sum sampling_distribution =? 1)%float then
    inl (AssertionError sum_message)
  else
    match first_entry_classes pos_slice_dict with
    | inl e => inl e
    | inr c =>
        inr {| im_ids := im_ids;
               in_dir := in_dir;
               pos_slice_dict := pos_slice_dict;
               transforms := transforms;
               preprocessing := preprocessing;
               sampling_distribution := sampling_distribution;
               classes := c;
               num_pseudo_slices := None |}
    end.

Definition __len__ : M nat := ids <- attr im_ids;; ret (length ids).

(** The class drawn by the first statement of [get_slice_idx]. *)
Definition sample_class : M string :=
  c <- attr classes;;
  p <- attr sampling_distribution;;
  np_random_choice_p c p.

Definition get_slice_idx (case_raw : string) : M Z :=
  sampled_class <- sample_class;;
  d <- attr pos_slice_dict;;
  by_class <- dict_getitem d case_raw;;
  slice_indices <- dict_getitem by_class sampled_class;;
  rand_idx <- np_random_choice slice_indices;;
  ret rand_idx.

Definition get_slice_idx_str (case_raw : string) : M (string * Z) :=
  slice_idx <- get_slice_idx case_raw;;
  ret (parse_slice_idx_to_str slice_idx, slice_idx).

Definition imaging_file (slice_idx_str : string) : string :=
  ("imaging_" ++ slice_idx_str ++ ".npy")%string.

Definition segmentation_file (slice_idx_str : string) : string :=
  ("segmentation_" ++ slice_idx_str ++ ".npy")%string.

(** [SliceDatasetOnTheFly.load_slices] *)
Definition slice_load_slices (case_raw : string)
  : M (option (array3 * array3)) :=
  '(slice_idx_str, _) <- get_slice_idx_str case_raw;;
  dir <- attr in_dir;;
  let case_fpath := join dir case_raw in
  let x_path := join case_fpath (imaging_file slice_idx_str) in
  let y_path := join case_fpath (segmentation_file slice_idx_str) in
  x <- np_load x_path;;
  y <- np_load y_path;;
  ret (Some (expand_last x, expand_last y)).

(** ** PseudoSliceDatasetOnTheFly *)

Definition pseudo_init (im_ids : list string) (in_dir : string)
    (pos_slice_dict : catalog) (transforms preprocessing : option callable)
    (sampling_distribution : list float) (num_pseudo_slices : Z)
  : exn + dataset :=
  match slice_init im_ids in_dir pos_slice_dict transforms preprocessing
          sampling_distribution with
  | inl e => inl e
  | inr d =>
      let d := set_num_pseudo_slices (Some num_pseudo_slices) d in
      if negb (num_pseudo_slices mod 2 =? 1)%Z then
        inl (AssertionError odd_message)
      else inr d
  end.

(** The body of the loop over the window: the neighbour's image goes
    into channel [idx] when its file exists. *)
Definition load_neighbor (case_fpath : string) (x_arr : array3)
    (it : nat * Z) : M array3 :=
  let '(idx, slice_idx) := it in
  let slice_idx_str := parse_slice_idx_to_str slice_idx in
  let x_path := join case_fpath (imaging_file slice_idx_str) in
  if isfile x_path then
    b <- np_load x_path;;
    lift (setitem_channel x_arr idx b)
  else ret x_arr.

(** [PseudoSliceDatasetOnTheFly.load_slices]; the result is [None] when
    the function falls off its end. *)
Definition pseudo_load_slices (n : Z) (case_raw : string)
  : M (option (array3 * array3)) :=
  dir <- attr in_dir;;
  let case_fpath := join dir case_raw in
  '(center_slice_idx_str, center_slice_idx) <- get_slice_idx_str case_raw;;
  let min := (center_slice_idx - (n - 1) / 2)%Z in
  let max := (center_slice_idx + (n - 1) / 2 + 1)%Z in
  let x_path := join case_fpath (imaging_file center_slice_idx_str) in
  let y_path := join case_fpath (segmentation_file center_slice_idx_str) in
  cx <- np_load x_path;;
  cy <- np_load y_path;;
  let center_x := expand_last cx in
  let center_y := expand_last cy in
  if (n =? 1)%Z then ret (Some (center_x, center_y))
  else if (1 <? n)%Z then
    x_arr <- for_each (load_neighbor case_fpath) (enumerate (py_range min max))
               (np_zeros (a3_rows center_x) (a3_cols center_x) (Z.to_nat n));;
    ret (Some (x_arr, center_y))
  else ret None.

(** ** The methods shared by both classes *)

(** [self.load_slices(case_raw)]: the method of the object's class. *)
Definition load_slices (case_raw : string) : M (option (array3 * array3)) :=
  n <- attr num_pseudo_slices;;
  match n with
  | None => slice_load_slices case_raw
  | Some n => pseudo_load_slices n case_raw
  end.

(** One stage of the pipeline: [f(image=x, mask=y)], then the two
    entries of the dict it returns. *)
Definition apply_stage (stage : option callable) (x y : pyval)
  : M (pyval * pyval) :=
  match stage with
  | None => ret (x, y)
  | Some f =>
      match f x y with
      | inl e => raise (Raised e)
      | inr data_dict =>
          x' <- dict_getitem data_dict "image";;
          y' <- dict_getitem data_dict "mask";;
          ret (x', y')
      end
  end.

Definition apply_transforms_and_preprocessing (x y : pyval)
  : M (pyval * pyval) :=
  t <- attr transforms;;
  '(x, y) <- apply_stage t x y;;
  p <- attr preprocessing;;
  '(x, y) <- apply_stage p x y;;
  ret (x, y).

(** [torch.from_numpy(x) if isinstance(x, np.ndarray) else x] *)
Definition to_tensor (x : pyval) : pyval :=
  match x with
  | NdArray a => Tensor a
  | other => other
  end.

(** [t.to(dtype)]: the tensor itself when it already has the type. *)
Definition tensor_to (d : dtype) (t : array3) : array3 :=
  if dtype_eqb (a3_dtype t) d then t
  else {| a3_dtype := d;
          a3_rows := a3_rows t;
          a3_cols := a3_cols t;
          a3_chans := a3_chans t;
          a3_at := fun i j k => astype (a3_dtype t) d (a3_at t i j k) |}.

(** [x.float()] and [y.long()] *)
Definition float_ (x : pyval) : M pyval :=
  match x with
  | Tensor t => ret (Tensor (tensor_to Float32 t))
  | NdArray _ =>
      raise (AttributeError "'numpy.ndarray' object has no attribute 'float'")
  | PyObject _ => raise (AttributeError "object has no attribute 'float'")
  end.

Definition long_ (y : pyval) : M pyval :=
  match y with
  | Tensor t => ret (Tensor (tensor_to Int64 t))
  | NdArray _ =>
      raise (AttributeError "'numpy.ndarray' object has no attribute 'long'")
  | PyObject _ => raise (AttributeError "object has no attribute 'long'")
  end.

(** [x, y = r] *)
Definition unpack (r : option (array3 * array3)) : M (array3 * array3) :=
  match r with
  | Some xy => ret xy
  | None => raise (TypeError "cannot unpack non-iterable NoneType object")
  end.

(** [__getitem__] *)
Definition __getitem__ (idx : Z) : M (pyval * pyval) :=
  ids <- attr im_ids;;
  case_id <- lift (seq_getitem ids idx);;
  r <- load_slices case_id;;
  '(x, y) <- unpack r;;
  '(x, y) <- apply_transforms_and_preprocessing (NdArray x) (NdArray y);;
  let x := to_tensor x in
  let y := to_tensor y in
  xf <- float_ x;;
  yl <- long_ y;;
  ret (xf, yl).

(** [__getitem__] from its second statement on: what it does with the
    case it has resolved. *)
Definition item_of_case (case_id : string) : M (pyval * pyval) :=
  r <- load_slices case_id;;
  '(x, y) <- unpack r;;
  '(x, y) <- apply_transforms_and_preprocessing (NdArray x) (NdArray y);;
  let x := to_tensor x in
  let y := to_tensor y in
  xf <- float_ x;;
  yl <- long_ y;;
  ret (xf, yl).

(** ** What a computation may change *)

(** The computation leaves the object it runs on as it found it. *)
Definition keeps_self {A : Type} (m : M A) : Prop :=
  forall w, self (snd (m w)) = self w.

(** The computation changes nothing at all. *)
Definition read_only {A : Type} (m : M A) : Prop :=
  forall w, snd (m w) = w.

End Dataset.

Notation "x <- m ;; k" := (bind m (fun x => k))
  (at level 61, m at next level, right associativity).
Notation "' pat <- m ;; k" := (bind m (fun x => match x with pat => k end))
  (at level 61, pat pattern, m at next level, right associativity).

(** ** A concrete random source

    A linear congruential generator over [N]; the weighted draw picks
    among the entries of positive probability.  It shows that the laws of
    [RandomSource] can be met, and runs the examples. *)

Definition lcg_next (g : N) : N := ((1103515245 * g + 12345) mod 2147483648)%N.

Definition lcg_below (n : nat) (g : N) : nat := N.to_nat (g mod N.of_nat n)%N.

Definition positive_indices (p : list float) : list nat :=
  filter (fun k => (0 <? nth k p 0)%float) (seq 0 (length p)).

Definition lcg_weighted_index (p : list float) (g : N) : nat * N :=
  let pos := positive_indices p in
  (nth (lcg_below (length pos) g) pos 0, lcg_next g).

Definition lcg_uniform_index (n : nat) (g : N) : nat * N :=
  (lcg_below n g, lcg_next g).

(** ** An example storage directory

    One case of a volume whose last slice is slice 7: the images of slices
    5, 6 and 7 and the mask of slice 7 are on disk, slices 8 and 9 are
    not. *)

Fixpoint zeros (k : nat) : string :=
  match k with
  | O => ""%string
  | S k' => String "0" (zeros k')
  end.

Definition zfill (width : nat) (s : string) : string :=
  (zeros (width - String.length s) ++ s)%string.

(** Modelled from the spec: [parse_slice_idx_to_str] of
    [kits19cnn/io/preprocess.py], which is not under src/: a fixed-width
    zero-padded decimal string (Python's [f"{slice_idx:03}"]). *)
Definition three_digits (n : Z) : string :=
  let digits := NilZero.string_of_uint (N.to_uint (Z.to_N (Z.abs n))) in
  if (n <? 0)%Z then ("-" ++ zfill 2 digits)%string else zfill 3 digits.

(** Sequential summation, as [np.sum] does for fewer than eight entries. *)
Definition seq_sum (l : list float) : float :=
  fold_left PrimFloat.add l 0%float.

Definition keep (_ _ : dtype) (x : Z) : Z := x.

Definition ex_image (slice_idx : Z) : array2 Z :=
  {| a2_dtype := Int16;
     a2_rows := 2;
     a2_cols := 3;
     a2_at := fun i j => (slice_idx * 100 + Z.of_nat i * 10 + Z.of_nat j + 1)%Z |}.

Definition ex_mask : array2 Z :=
  {| a2_dtype := UInt8;
     a2_rows := 2;
     a2_cols := 3;
     a2_at := fun i j => if Nat.eqb i j then 2%Z else 0%Z |}.

Definition ex_files : dict (array2 Z) :=
  [ ("/data/case01/imaging_005.npy"%string, ex_image 5);
    ("/data/case01/imaging_006.npy"%string, ex_image 6);
    ("/data/case01/imaging_007.npy"%string, ex_image 7);
    ("/data/case01/segmentation_007.npy"%string, ex_mask) ].

Definition ex_disk (path : string) : option (array2 Z) := dict_get ex_files path.

(** The catalog and the distribution of the golden scenario. *)
Definition golden_catalog : catalog :=
  [ ("case01"%string,
     [ ("bg"%string, [0; 1; 2]%Z);
       ("kidney"%string, [5; 6]%Z);
       ("tumor"%string, [7]%Z) ]) ].

Definition golden_distribution : list float := [0%float; 0%float; 1%float].

Definition ex_dataset (p : list float) (n : option Z) : dataset Z :=
  {| im_ids := ["case01"%string];
     in_dir := "/data"%string;
     pos_slice_dict := golden_catalog;
     transforms := None;
     preprocessing := None;
     sampling_distribution := p;
     classes := ["bg"%string; "kidney"%string; "tumor"%string];
     num_pseudo_slices := n |}.

Definition ex_world (p : list float) (n : option Z) (g : N) : world Z N :=
  {| self := ex_dataset p n; random_state := g |}.

(** A second case that has no ["tumor"] label, and a case whose
    ["bg"] and ["tumor"] lists are empty. *)
Definition two_case_catalog : catalog :=
  golden_catalog
  ++ [ ("case02"%string,
        [ ("bg"%string, [0]%Z); ("kidney"%string, [3]%Z) ]) ].

Definition sparse_catalog : catalog :=
  [ ("case01"%string,
     [ ("bg"%string, []);
       ("kidney"%string, [5; 6]%Z);
       ("tumor"%string, []) ]) ].

Definition ex_dataset_of (ids : list string) (dir : string) (cat : catalog)
    (tr pre : option (callable Z)) (p : list float) (n : option Z)
  : dataset Z :=
  {| im_ids := ids;
     in_dir := dir;
     pos_slice_dict := cat;
     transforms := tr;
     preprocessing := pre;
     sampling_distribution := p;
     classes := ["bg"%string; "kidney"%string; "tumor"%string];
     num_pseudo_slices := n |}.

(** The same directory with slice 6 stored as a single row, and with
    slice 6 stored as a 3 x 3 array. *)
Definition ex_row_image : array2 Z :=
  {| a2_dtype := Int16;
     a2_rows := 1;
     a2_cols := 3;
     a2_at := fun _ j => (Z.of_nat j + 61)%Z |}.

Definition ex_square_image : array2 Z :=
  {| a2_dtype := Int16;
     a2_rows := 3;
     a2_cols := 3;
     a2_at := fun _ _ => 1%Z |}.

Definition ex_disk_row (path : string) : option (array2 Z) :=
  dict_get (("/data/case01/imaging_006.npy"%string, ex_row_image) :: ex_files)
    path.

(** The same directory with the mask of slice 7 stored as a 7 x 9 array. *)
Definition ex_big_mask : array2 Z :=
  {| a2_dtype := UInt8;
     a2_rows := 7;
     a2_cols := 9;
     a2_at := fun i j => Z.of_nat (i + j) |}.

Definition ex_disk_big_mask (path : string) : option (array2 Z) :=
  dict_get
    (("/data/case01/segmentation_007.npy"%string, ex_big_mask) :: ex_files)
    path.

Definition ex_disk_square (path : string) : option (array2 Z) :=
  dict_get
    (("/data/case01/imaging_006.npy"%string, ex_square_image) :: ex_files) path.

(** Two stages: a transform that returns its inputs with one more key,
    and a preprocessing that turns the image into a tensor. *)
Definition ex_transform : callable Z :=
  fun x y =>
    inr [ ("image"%string, x); ("mask"%string, y);
          ("bboxes"%string, PyObject Z "list") ].

Definition ex_preprocess : callable Z :=
  fun x y => inr [ ("mask"%string, y); ("image"%string, to_tensor x) ].

Definition ex_failing_transform : callable Z :=
  fun _ _ => inl "RuntimeError"%string.

(** Floats that are neither below nor above zero. *)
Definition zero_or_nan (x : float) : Prop :=
  x = 0%float \/ x = (-0)%float \/ x = nan.

Lemma not_lt_not_gt_zero (x : float) :
  (x <? 0)%float = false -> (0 <? x)%float = false -> zero_or_nan x.
Proof.
  rewrite !ltb_spec. intros Hneg Hpos.
  rewrite <- (SF2Prim_Prim2SF x).
  destruct (Prim2SF x) as [[|]|[|]| |[|] m e]; cbn in Hneg, Hpos;
    try discriminate; unfold zero_or_nan; auto.
Qed.

Lemma zero_or_nan_sub (x y : float) :
  zero_or_nan x -> zero_or_nan y -> zero_or_nan (x - y).
Proof.
  unfold zero_or_nan.
  intros [-> | [-> | ->]] [-> | [-> | ->]]; vm_compute; auto.
Qed.

Lemma zero_or_nan_add (x y : float) :
  zero_or_nan x -> zero_or_nan y -> zero_or_nan (x + y).
Proof.
  unfold zero_or_nan.
  intros [-> | [-> | ->]] [-> | [-> | ->]]; vm_compute; auto.
Qed.

Lemma kahan_fold_zero_or_nan (l : list float) :
  forall sum c,
    Forall zero_or_nan l -> zero_or_nan sum -> zero_or_nan c ->
    zero_or_nan (fst (fold_left kahan_step l (sum, c))).
Proof.
  induction l as [| d l IH]; intros sum c Hl Hs Hc; simpl.
  - exact Hs.
  - inversion Hl as [| ? ? Hd Hl']; subst.
    apply IH; auto using zero_or_nan_add, zero_or_nan_sub.
Qed.

Lemma kahan_sum_zero_or_nan (p : list float) :
  Forall zero_or_nan p -> zero_or_nan (kahan_sum p).
Proof.
  destruct p as [| x rest]; intros Hp; simpl.
  - left; reflexivity.
  - inversion Hp; subst.
    apply kahan_fold_zero_or_nan; auto. left; reflexivity.
Qed.

(** A distribution numpy accepts gives some entry a positive probability. *)
Lemma accepted_has_positive (n : nat) (p : list float) :
  choice_p_check n p = None ->
  exists x, In x p /\ (0 <? x)%float = true.
Proof.
  unfold choice_p_check. intros Hacc.
  destruct (Nat.eqb n 0); [discriminate |].
  destruct (negb (Nat.eqb (length p) n)); [discriminate |].
  destruct (PrimFloat.is_nan (kahan_sum p)) eqn:Hnan; [discriminate |].
  destruct (existsb (fun x => (x <? 0)%float) p) eqn:Hneg; [discriminate |].
  destruct (atol <? PrimFloat.abs (kahan_sum p - 1))%float eqn:Htol;
    [discriminate |].
  destruct (existsb (fun x => (0 <? x)%float) p) eqn:Hpos.
  - apply existsb_exists in Hpos. exact Hpos.
  - exfalso.
    assert (Hall : Forall zero_or_nan p).
    { apply Forall_forall. intros x Hx.
      apply not_lt_not_gt_zero.
      - destruct (x <? 0)%float eqn:E; [| reflexivity].
        assert (existsb (fun x => (x <? 0)%float) p = true)
          by (apply existsb_exists; eauto).
        congruence.
      - destruct (0 <? x)%float eqn:E; [| reflexivity].
        assert (existsb (fun x => (0 <? x)%float) p = true)
          by (apply existsb_exists; eauto).
        congruence. }
    destruct (@kahan_sum_zero_or_nan _ Hall) as [E | [E | E]];
      rewrite E in Hnan, Htol; vm_compute in Hnan, Htol; discriminate.
Qed.

Lemma lcg_below_lt (n : nat) (g : N) : 0 < n -> lcg_below n g < n.
Proof.
  intros Hn. unfold lcg_below.
  assert (g mod N.of_nat n < N.of_nat n)%N by (apply N.mod_lt; lia).
  lia.
Qed.

Lemma positive_indices_spec (p : list float) (k : nat) :
  In k (positive_indices p) <->
  k < length p /\ (0 <? nth k p 0)%float = true.
Proof.
  unfold positive_indices. rewrite filter_In, in_seq.
  split; intros [H1 H2]; split; auto; lia.
Qed.

Lemma lcg_weighted_index_range (p : list float) (g : N) :
  p <> [] -> fst (lcg_weighted_index p g) < length p.
Proof.
  intros Hp. unfold lcg_weighted_index; simpl.
  destruct (positive_indices p) as [| k0 pos] eqn:E.
  - destruct p; [congruence | destruct (lcg_below _ g); simpl; lia].
  - assert (Hin : In (nth (lcg_below (length (k0 :: pos)) g) (k0 :: pos) 0)
                     (positive_indices p)).
    { rewrite E. apply nth_In. apply lcg_below_lt. simpl; lia. }
    apply positive_indices_spec in Hin. tauto.
Qed.

Lemma lcg_weighted_index_support (p : list float) (g : N) (x : float) :
  choice_p_check (length p) p = None ->
  nth_error p (fst (lcg_weighted_index p g)) = Some x ->
  (0 <? x)%float = true.
Proof.
  intros Hacc Hx. unfold lcg_weighted_index in Hx; simpl in Hx.
  destruct (@accepted_has_positive _ _ Hacc) as (y & Hy & Hpos).
  destruct (In_nth p y 0%float Hy) as (j & Hj & Hnth).
  assert (Hjin : In j (positive_indices p)).
  { apply positive_indices_spec. rewrite Hnth. auto. }
  destruct (positive_indices p) as [| k0 pos] eqn:E; [contradiction |].
  assert (Hin : In (nth (lcg_below (length (k0 :: pos)) g) (k0 :: pos) 0)
                   (positive_indices p)).
  { rewrite E. apply nth_In. apply lcg_below_lt. simpl; lia. }
  apply positive_indices_spec in Hin. destruct Hin as [_ Hin].
  rewrite (@nth_error_nth _ _ _ _ 0%float Hx) in Hin. exact Hin.
Qed.

Lemma lcg_uniform_index_range (n : nat) (g : N) :
  0 < n -> fst (lcg_uniform_index n g) < n.
Proof.
  intros Hn. simpl. apply lcg_below_lt. exact Hn.
Qed.

#[export] Instance lcg_random_source : RandomSource N := {
  weighted_index := lcg_weighted_index;
  uniform_index := lcg_uniform_index;
  weighted_index_range := lcg_weighted_index_range;
  weighted_index_support := lcg_weighted_index_support;
  uniform_index_range := lcg_uniform_index_range
}.

(** * Properties *)

Unset Implicit Arguments.

Arguments join : simpl never.
Arguments imaging_file : simpl never.
Arguments segmentation_file : simpl never.

Section Properties.

Variable scalar : Type.
Variable zero : scalar.
Variable astype : dtype -> dtype -> scalar -> scalar.
Variable np_sum : list float -> float.
Variable parse_slice_idx_to_str : Z -> string.
Variable disk : string -> option (array2 scalar).
Variable G : Type.
Context {RS : RandomSource G}.

Local Abbreviation M := (M scalar G).
Local Abbreviation world := (world scalar G).
Local Abbreviation slice_init := (slice_init (scalar := scalar) np_sum).
Local Abbreviation pseudo_init := (pseudo_init (scalar := scalar) np_sum).
Local Abbreviation np_load := (np_load disk (G := G)).
Local Abbreviation isfile := (isfile disk).
Local Abbreviation get_slice_idx_str :=
  (get_slice_idx_str (scalar := scalar) parse_slice_idx_to_str (G := G)).
Local Abbreviation get_slice_idx := (get_slice_idx (scalar := scalar) (G := G)).
Local Abbreviation sample_class := (sample_class (scalar := scalar) (G := G)).
Local Abbreviation __len__ := (__len__ (scalar := scalar) (G := G)).
Local Abbreviation setitem_channel := (setitem_channel astype).
Local Abbreviation load_neighbor :=
  (load_neighbor astype parse_slice_idx_to_str disk (G := G)).
Local Abbreviation slice_load_slices :=
  (slice_load_slices parse_slice_idx_to_str disk (G := G)).
Local Abbreviation pseudo_load_slices :=
  (pseudo_load_slices zero astype parse_slice_idx_to_str disk (G := G)).
Local Abbreviation load_slices :=
  (load_slices zero astype parse_slice_idx_to_str disk (G := G)).
Local Abbreviation float_ := (float_ astype (G := G)).
Local Abbreviation long_ := (long_ astype (G := G)).
Local Abbreviation tensor_to := (tensor_to astype).
Local Abbreviation __getitem__ :=
  (__getitem__ zero astype parse_slice_idx_to_str disk (G := G)).
Local Abbreviation item_of_case :=
  (item_of_case zero astype parse_slice_idx_to_str disk (G := G)).
Local Abbreviation log_class_indices :=
  (log_class_indices (scalar := scalar) (G := G)).
Local Abbreviation apply_transforms_and_preprocessing :=
  (apply_transforms_and_preprocessing (scalar := scalar) (G := G)).

(** ** The frame of the monadic operations *)

Lemma keeps_self_ret (A : Type) (a : A) : keeps_self (ret a : M A).
Proof. intros w. reflexivity. Qed.

Lemma keeps_self_raise (A : Type) (e : exn) : keeps_self (raise e : M A).
Proof. intros w. reflexivity. Qed.

Lemma keeps_self_lift (A : Type) (r : exn + A) : keeps_self (lift r : M A).
Proof. intros w. reflexivity. Qed.

Lemma keeps_self_attr (A : Type) (f : dataset scalar -> A) :
  keeps_self (attr f : M A).
Proof. intros w. reflexivity. Qed.

Lemma keeps_self_draw (A : Type) (f : G -> A * G) :
  keeps_self (draw f : M A).
Proof. intros w. unfold draw. destruct (f (random_state w)). reflexivity. Qed.

Lemma keeps_self_bind (A B : Type) (m : M A) (k : A -> M B) :
  keeps_self m -> (forall a, keeps_self (k a)) -> keeps_self (bind m k).
Proof.
  intros Hm Hk w. unfold bind.
  specialize (Hm w). destruct (m w) as [[e | a] w1]; simpl in *.
  - exact Hm.
  - rewrite Hk. exact Hm.
Qed.

Lemma keeps_self_for_each (A S : Type) (body : S -> A -> M S) (l : list A) :
  (forall s a, keeps_self (body s a)) ->
  forall s, keeps_self (for_each body l s).
Proof.
  intros Hbody. induction l as [| a l IH]; intros s; simpl.
  - apply keeps_self_ret.
  - apply keeps_self_bind; auto.
Qed.

Ltac frame_step :=
  match goal with
  | |- keeps_self (bind _ _) => apply keeps_self_bind; [| intro]
  | |- keeps_self (ret _) => apply keeps_self_ret
  | |- keeps_self (raise _) => apply keeps_self_raise
  | |- keeps_self (lift _) => apply keeps_self_lift
  | |- keeps_self (attr _) => apply keeps_self_attr
  | |- keeps_self (draw _) => apply keeps_self_draw
  | |- keeps_self (for_each _ _ _) => apply keeps_self_for_each; intros
  | |- keeps_self (match ?x with _ => _ end) => destruct x
  end.

Ltac frame := repeat frame_step.

Lemma keeps_self_sample_class : keeps_self sample_class.
Proof.
  unfold sample_class, np_random_choice_p. frame.
Qed.

Lemma keeps_self_get_slice_idx (case_raw : string) :
  keeps_self (get_slice_idx case_raw).
Proof.
  unfold get_slice_idx, dict_getitem, np_random_choice. frame.
  apply keeps_self_sample_class.
Qed.

Lemma keeps_self_get_slice_idx_str (case_raw : string) :
  keeps_self (get_slice_idx_str case_raw).
Proof.
  unfold get_slice_idx_str. frame. apply keeps_self_get_slice_idx.
Qed.

Lemma keeps_self_np_load (path : string) : keeps_self (np_load path).
Proof. unfold np_load. frame. Qed.

Lemma keeps_self_slice_load_slices (case_raw : string) :
  keeps_self (slice_load_slices case_raw).
Proof.
  unfold slice_load_slices. frame;
    auto using keeps_self_get_slice_idx_str, keeps_self_np_load.
Qed.

Lemma keeps_self_load_neighbor (fp : string) (x : array3 scalar) (it : nat * Z) :
  keeps_self (load_neighbor fp x it).
Proof.
  unfold load_neighbor. frame; auto using keeps_self_np_load.
Qed.

Lemma keeps_self_pseudo_load_slices (n : Z) (case_raw : string) :
  keeps_self (pseudo_load_slices n case_raw).
Proof.
  unfold pseudo_load_slices. frame;
    auto using keeps_self_get_slice_idx_str, keeps_self_np_load,
      keeps_self_load_neighbor.
Qed.

Lemma keeps_self_load_slices (case_raw : string) :
  keeps_self (load_slices case_raw).
Proof.
  unfold load_slices. frame;
    auto using keeps_self_slice_load_slices, keeps_self_pseudo_load_slices.
Qed.

Lemma keeps_self_apply_stage (stage : option (callable scalar)) (x y : pyval scalar) :
  keeps_self (apply_stage stage x y : M _).
Proof.
  unfold apply_stage, dict_getitem. frame.
Qed.

Lemma keeps_self_getitem (idx : Z) : keeps_self (__getitem__ idx).
Proof.
  unfold __getitem__, apply_transforms_and_preprocessing, unpack, float_, long_.
  frame; auto using keeps_self_load_slices, keeps_self_apply_stage.
Qed.

Lemma read_only_len : read_only __len__.
Proof. intros w. reflexivity. Qed.

(** C9: no access changes the dataset object.  [__getitem__], the two
    [load_slices] (and the dispatch between them), [get_slice_idx] and
    [get_slice_idx_str] hand back the object they were called on, with its
    case list, catalog, distribution and classes; [__len__] changes
    nothing at all.  What a draw changes is the random state only. *)
Theorem access_keeps_dataset (idx n : Z) (case_raw : string) :
  keeps_self (__getitem__ idx) /\
  read_only __len__ /\
  keeps_self (load_slices case_raw) /\
  keeps_self (slice_load_slices case_raw) /\
  keeps_self (pseudo_load_slices n case_raw) /\
  keeps_self (get_slice_idx case_raw) /\
  keeps_self (get_slice_idx_str case_raw).
Proof.
  repeat split;
    auto using keeps_self_getitem, read_only_len, keeps_self_load_slices,
      keeps_self_slice_load_slices, keeps_self_pseudo_load_slices,
      keeps_self_get_slice_idx, keeps_self_get_slice_idx_str.
Qed.

(** ** Construction *)

Lemma first_entry_classes_ok (cat : catalog) :
  (exists c, first_entry_classes cat = inr c) <-> cat <> [].
Proof.
  unfold first_entry_classes. destruct cat as [| [k v] rest]; simpl.
  - split; [intros [c Hc]; discriminate | congruence].
  - rewrite String.eqb_refl. split; [discriminate | eauto].
Qed.

Lemma first_entry_classes_error (cat : catalog) (e : exn) :
  first_entry_classes cat = inl e -> e = IndexError 0 0.
Proof.
  unfold first_entry_classes. destruct cat as [| [k v] rest]; simpl.
  - congruence.
  - rewrite String.eqb_refl. discriminate.
Qed.

(** C5: construction raises the assertion on the distribution exactly
    when [np.sum(sampling_distribution) == 1] is false, an exact float
    comparison, for both classes; and [SliceDatasetOnTheFly] is built
    exactly when the sum equals 1 (and the catalog has an entry to take
    the classes from). *)
Theorem init_checks_sum (ids : list string) (dir : string) (cat : catalog)
    (tr pre : option (callable scalar)) (p : list float) (n : Z) :
  (slice_init ids dir cat tr pre p = inl (AssertionError sum_message) <->
   (np_sum p =? 1)%float = false) /\
  (pseudo_init ids dir cat tr pre p n = inl (AssertionError sum_message) <->
   (np_sum p =? 1)%float = false) /\
  ((exists d, slice_init ids dir cat tr pre p = inr d) <->
   (np_sum p =? 1)%float = true /\ cat <> []).
Proof.
  unfold pseudo_init, slice_init.
  destruct (np_sum p =? 1)%float; simpl.
  - destruct cat as [| [k v] rest]; unfold first_entry_classes; simpl.
    + split; [| split]; (split; [intros H | intros H]); try discriminate.
      * destruct H as [d Hd]; discriminate.
      * destruct H as [_ Hcat]; congruence.
    + rewrite String.eqb_refl.
      split; [| split]; (split; [intros H | intros H]); try discriminate.
      * destruct (negb (n mod 2 =? 1)%Z); discriminate.
      * split; [reflexivity | discriminate].
      * eauto.
  - split; [| split]; (split; [intros H | intros H]); try reflexivity.
    + destruct H as [d Hd]; discriminate.
    + destruct H as [Hf _]; discriminate.
Qed.

(** C6: once the other arguments pass the checks of the base class, an
    even [num_pseudo_slices] makes the constructor raise its assertion and
    an odd one gives the dataset with the attribute set. *)
Theorem pseudo_init_checks_odd (ids : list string) (dir : string)
    (cat : catalog) (tr pre : option (callable scalar)) (p : list float)
    (n : Z) (d : dataset scalar) :
  slice_init ids dir cat tr pre p = inr d ->
  (Z.even n = true ->
   pseudo_init ids dir cat tr pre p n = inl (AssertionError odd_message)) /\
  (Z.odd n = true ->
   pseudo_init ids dir cat tr pre p n
   = inr (set_num_pseudo_slices (Some n) d)).
Proof.
  intros Hbase. unfold pseudo_init. rewrite Hbase.
  rewrite Zmod_odd. split; intros Hn.
  - rewrite <- Z.negb_even, Hn. reflexivity.
  - rewrite Hn. reflexivity.
Qed.

(** ** Drawing a slice index *)

Lemma choice_p_check_size (n : nat) (p : list float) :
  choice_p_check n p = None -> n <> 0 /\ length p = n.
Proof.
  unfold choice_p_check.
  destruct (Nat.eqb n 0) eqn:Hn; [discriminate |].
  destruct (Nat.eqb (length p) n) eqn:Hp; simpl; [| discriminate].
  intros _. apply Nat.eqb_neq in Hn. apply Nat.eqb_eq in Hp. auto.
Qed.

(** The first draw: an accepted distribution yields a class whose
    probability is positive. *)
Lemma sample_class_draw (w : world) :
  choice_p_check (length (classes (self w)))
    (sampling_distribution (self w)) = None ->
  exists k c x g,
    nth_error (classes (self w)) k = Some c /\
    nth_error (sampling_distribution (self w)) k = Some x /\
    (0 <? x)%float = true /\
    sample_class w = (inr c, {| self := self w; random_state := g |}).
Proof.
  intros Hacc.
  destruct (choice_p_check_size _ _ Hacc) as [Hn Hlen].
  set (p := sampling_distribution (self w)) in *.
  set (cs := classes (self w)) in *.
  assert (Hp : p <> []) by (destruct p; simpl in *; congruence).
  pose proof (@weighted_index_range _ _ p (random_state w) Hp) as Hk.
  destruct (weighted_index p (random_state w)) as [k g] eqn:Hdraw.
  simpl in Hk.
  destruct (nth_error p k) as [x |] eqn:Hx;
    [| apply nth_error_None in Hx; lia].
  exists k, (nth k cs ""%string), x, g.
  repeat split.
  - apply nth_error_nth'. lia.
  - exact Hx.
  - apply (@weighted_index_support _ _ p (random_state w)).
    + rewrite Hlen. exact Hacc.
    + rewrite Hdraw. exact Hx.
  - unfold sample_class, np_random_choice_p, bind, attr, draw, ret.
    fold cs p. rewrite Hacc. simpl. rewrite Hdraw. reflexivity.
Qed.

(** The second draw: a non-empty list yields one of its elements. *)
Lemma np_random_choice_draw (l : list Z) (w : world) :
  l <> [] ->
  exists idx g,
    In idx l /\
    np_random_choice l w = (inr idx, {| self := self w; random_state := g |}).
Proof.
  intros Hl. unfold np_random_choice, bind, draw, ret.
  destruct l as [| z l']; [congruence |].
  change (Nat.eqb (length (z :: l')) 0) with false. cbv beta iota.
  pose proof (@uniform_index_range _ _ (length (z :: l')) (random_state w)) as Hk.
  destruct (uniform_index (length (z :: l')) (random_state w)) as [k g].
  exists (nth k (z :: l') 0%Z), g. split; [| reflexivity].
  apply nth_In. apply Hk. simpl; lia.
Qed.

(** C2: when numpy accepts the distribution for the class list and the
    case lists at least one slice for every class of positive probability,
    a draw returns: the index it returns is an element of
    [pos_slice_dict[case][c]] for a class [c] of [self.classes]. *)
Theorem get_slice_idx_in_catalog (w : world) (case_raw : string)
    (by_class : dict (list Z)) :
  choice_p_check (length (classes (self w)))
    (sampling_distribution (self w)) = None ->
  dict_get (pos_slice_dict (self w)) case_raw = Some by_class ->
  (forall k c x,
      nth_error (classes (self w)) k = Some c ->
      nth_error (sampling_distribution (self w)) k = Some x ->
      (0 <? x)%float = true ->
      exists l, dict_get by_class c = Some l /\ l <> []) ->
  exists c l idx w',
    get_slice_idx case_raw w = (inr idx, w') /\
    In c (classes (self w)) /\
    dict_get by_class c = Some l /\
    In idx l.
Proof.
  intros Hacc Hcase Hlists.
  destruct (sample_class_draw w Hacc) as (k & c & x & g & Hc & Hx & Hpos & Hs).
  destruct (Hlists k c x Hc Hx Hpos) as (l & Hl & Hne).
  destruct (np_random_choice_draw l
              {| self := self w; random_state := g |} Hne)
    as (idx & g' & Hin & Hdraw).
  exists c, l, idx, {| self := self w; random_state := g' |}.
  repeat split; eauto using nth_error_In.
  unfold get_slice_idx, bind. rewrite Hs.
  unfold attr, dict_getitem. simpl. rewrite Hcase. unfold ret at 1.
  rewrite Hl. unfold ret at 1. rewrite Hdraw. reflexivity.
Qed.

Lemma slice_init_fields (ids : list string) (dir : string) (cat : catalog)
    (tr pre : option (callable scalar)) (p : list float) (d : dataset scalar) :
  slice_init ids dir cat tr pre p = inr d ->
  im_ids d = ids /\ in_dir d = dir /\ pos_slice_dict d = cat /\
  sampling_distribution d = p /\
  first_entry_classes cat = inr (classes d) /\
  num_pseudo_slices d = None.
Proof.
  unfold slice_init.
  destruct (negb (np_sum p =? 1)%float); [discriminate |].
  destruct (first_entry_classes cat) as [e | c]; [discriminate |].
  intros [= <-]. simpl. auto 10.
Qed.

Lemma pseudo_init_fields (ids : list string) (dir : string) (cat : catalog)
    (tr pre : option (callable scalar)) (p : list float) (n : Z)
    (d : dataset scalar) :
  pseudo_init ids dir cat tr pre p n = inr d ->
  im_ids d = ids /\ in_dir d = dir /\ pos_slice_dict d = cat /\
  sampling_distribution d = p /\
  first_entry_classes cat = inr (classes d) /\
  num_pseudo_slices d = Some n.
Proof.
  unfold pseudo_init.
  destruct (slice_init ids dir cat tr pre p) as [e | d0] eqn:Hbase;
    [discriminate |].
  destruct (negb (n mod 2 =? 1)%Z); [discriminate |].
  intros [= <-]. apply slice_init_fields in Hbase.
  destruct Hbase as (H1 & H2 & H3 & H4 & H5 & _). simpl.
  repeat split; assumption.
Qed.

(** C7: the golden scenario.  In a dataset of either class built from the
    catalog [{"case01": {"bg": [0,1,2], "kidney": [5,6], "tumor": [7]}}]
    with the distribution [0.0, 0.0, 1.0], a draw for ["case01"] samples
    the class ["tumor"] and returns the slice index 7, whatever the random
    state is. *)
Theorem golden_draw (ids : list string) (dir : string)
    (tr pre : option (callable scalar)) (n : Z) (d : dataset scalar)
    (w : world) :
  slice_init ids dir golden_catalog tr pre golden_distribution = inr d \/
  pseudo_init ids dir golden_catalog tr pre golden_distribution n = inr d ->
  self w = d ->
  exists g1 g2,
    sample_class w
    = (inr "tumor"%string, {| self := self w; random_state := g1 |}) /\
    get_slice_idx "case01" w
    = (inr 7%Z, {| self := self w; random_state := g2 |}).
Proof.
  clear zero astype parse_slice_idx_to_str disk.
  intros Hinit Hself.
  assert (Hfields : pos_slice_dict d = golden_catalog /\
                    sampling_distribution d = golden_distribution /\
                    classes d = ["bg"; "kidney"; "tumor"]%string).
  { destruct Hinit as [Hinit | Hinit];
      [apply slice_init_fields in Hinit | apply pseudo_init_fields in Hinit];
      destruct Hinit as (_ & _ & Hcat & Hp & Hc & _);
      vm_compute in Hc; injection Hc as Hc; auto. }
  destruct Hfields as (Hcat & Hp & Hc). rewrite <- Hself in Hcat, Hp, Hc.
  assert (Hacc : choice_p_check (length (classes (self w)))
                   (sampling_distribution (self w)) = None).
  { rewrite Hc, Hp. vm_compute. reflexivity. }
  destruct (sample_class_draw w Hacc) as (k & c & x & g1 & Hk & Hx & Hpos & Hs).
  rewrite Hc in Hk. rewrite Hp in Hx.
  assert (c = "tumor"%string) as ->.
  { destruct k as [| [| [| k]]]; simpl in Hk, Hx.
    - injection Hx as <-. vm_compute in Hpos. discriminate.
    - injection Hx as <-. vm_compute in Hpos. discriminate.
    - congruence.
    - destruct k; discriminate. }
  assert (Hne : [7%Z] <> []) by discriminate.
  destruct (np_random_choice_draw [7%Z]
              {| self := self w; random_state := g1 |} Hne)
    as (idx & g2 & Hin & Hdraw).
  destruct Hin as [<- | []].
  exists g1, g2. split; [exact Hs |].
  unfold get_slice_idx, bind. rewrite Hs.
  unfold attr, dict_getitem. simpl. rewrite Hcat. simpl.
  rewrite Hdraw. reflexivity.
Qed.

(** ** Loading *)

Lemma get_slice_idx_str_parse (case_raw : string) (w w1 : world)
    (s : string) (c : Z) :
  get_slice_idx_str case_raw w = (inr (s, c), w1) ->
  s = parse_slice_idx_to_str c /\ get_slice_idx case_raw w = (inr c, w1).
Proof.
  unfold get_slice_idx_str, bind, ret.
  destruct (get_slice_idx case_raw w) as [[e | c'] w'];
    [discriminate |].
  intros [= <- <- <-]. auto.
Qed.

(** The draw reads the classes, the distribution and the catalog of the
    object, and nothing else of it. *)
Lemma get_slice_idx_str_variant (case_raw : string) (d : dataset scalar)
    (n : option Z) (g : G) :
  let r := get_slice_idx_str case_raw {| self := d; random_state := g |} in
  get_slice_idx_str case_raw
    {| self := set_num_pseudo_slices n d; random_state := g |}
  = (fst r, {| self := set_num_pseudo_slices n d;
               random_state := random_state (snd r) |}).
Proof.
  intros r. subst r.
  unfold get_slice_idx_str, get_slice_idx, sample_class, np_random_choice_p,
    np_random_choice, dict_getitem, bind, attr, draw, ret, raise.
  cbn.
  destruct (choice_p_check (length (classes d)) (sampling_distribution d));
    [reflexivity |]. cbn.
  destruct (weighted_index (sampling_distribution d) g) as [k g1]. cbn.
  destruct (dict_get (pos_slice_dict d) case_raw) as [by_class |];
    [| reflexivity]. cbn.
  destruct (dict_get by_class (nth k (classes d) ""%string)) as [l |];
    [| reflexivity]. cbn.
  destruct (Nat.eqb (length l) 0); [reflexivity |]. cbn.
  destruct (uniform_index (length l) g1) as [j g2]. reflexivity.
Qed.

Lemma pseudo_load_slices_center (n : Z) (case_raw : string) (w w1 : world)
    (s : string) (c : Z) (cx cy : array2 scalar) :
  get_slice_idx_str case_raw w = (inr (s, c), w1) ->
  disk (join (join (in_dir (self w)) case_raw) (imaging_file s)) = Some cx ->
  disk (join (join (in_dir (self w)) case_raw) (segmentation_file s))
  = Some cy ->
  pseudo_load_slices n case_raw w
  = (if (n =? 1)%Z then ret (Some (expand_last cx, expand_last cy))
     else if (1 <? n)%Z then
       x_arr <- for_each (load_neighbor (join (in_dir (self w)) case_raw))
                  (enumerate (py_range (c - (n - 1) / 2)
                                        (c + (n - 1) / 2 + 1)))
                  (np_zeros zero (a2_rows cx) (a2_cols cx) (Z.to_nat n));;
       ret (Some (x_arr, expand_last cy))
     else ret None) w1.
Proof.
  intros Hdraw Hx Hy.
  unfold pseudo_load_slices, bind at 1, attr at 1.
  unfold bind at 1. rewrite Hdraw.
  unfold bind at 1, np_load at 1. rewrite Hx. unfold ret at 1.
  unfold bind at 1, np_load at 1. rewrite Hy. unfold ret at 1.
  reflexivity.
Qed.

Lemma load_slices_dispatch (case_raw : string) (w : world) :
  load_slices case_raw w
  = match num_pseudo_slices (self w) with
    | None => slice_load_slices case_raw w
    | Some n => pseudo_load_slices n case_raw w
    end.
Proof.
  unfold load_slices, bind, attr.
  destruct (num_pseudo_slices (self w)); reflexivity.
Qed.

(** C10: a negative odd [num_pseudo_slices] passes the assertion of the
    constructor, and [load_slices] on the dataset it builds returns [None]
    once the centre image and mask have been read. *)
Theorem negative_odd_window_loads_none (ids : list string) (dir : string)
    (cat : catalog) (tr pre : option (callable scalar)) (p : list float)
    (n : Z) (d : dataset scalar) :
  (n < 0)%Z ->
  Z.odd n = true ->
  slice_init ids dir cat tr pre p = inr d ->
  pseudo_init ids dir cat tr pre p n
  = inr (set_num_pseudo_slices (Some n) d) /\
  forall (case_raw : string) (w w1 : world) (s : string) (c : Z)
         (cx cy : array2 scalar),
    self w = set_num_pseudo_slices (Some n) d ->
    get_slice_idx_str case_raw w = (inr (s, c), w1) ->
    disk (join (join dir case_raw) (imaging_file s)) = Some cx ->
    disk (join (join dir case_raw) (segmentation_file s)) = Some cy ->
    load_slices case_raw w = (inr None, w1).
Proof.
  intros Hneg Hodd Hbase. split.
  - unfold pseudo_init. rewrite Hbase, Zmod_odd, Hodd. reflexivity.
  - intros case_raw w w1 s c cx cy Hself Hdraw Hx Hy.
    apply slice_init_fields in Hbase as (_ & Hdir & _).
    assert (Hd : in_dir (self w) = dir) by (rewrite Hself; exact Hdir).
    rewrite <- Hd in Hx, Hy.
    rewrite load_slices_dispatch, Hself. simpl num_pseudo_slices. cbv iota.
    rewrite (pseudo_load_slices_center n _ _ _ _ _ _ _ Hdraw Hx Hy).
    destruct (Z.eqb_spec n 1); [lia |].
    destruct (Z.ltb_spec 1 n); [lia |].
    reflexivity.
Qed.

Lemma slice_load_slices_run (case_raw : string) (w : world) :
  slice_load_slices case_raw w
  = match get_slice_idx_str case_raw w with
    | (inl e, w1) => (inl e, w1)
    | (inr (s, _), w1) =>
        let fp := join (in_dir (self w1)) case_raw in
        match disk (join fp (imaging_file s)) with
        | None => (inl (FileNotFoundError (join fp (imaging_file s))), w1)
        | Some cx =>
            match disk (join fp (segmentation_file s)) with
            | None =>
                (inl (FileNotFoundError (join fp (segmentation_file s))), w1)
            | Some cy => (inr (Some (expand_last cx, expand_last cy)), w1)
            end
        end
    end.
Proof.
  unfold slice_load_slices, bind.
  destruct (get_slice_idx_str case_raw w) as [[e | [s c]] w1];
    [reflexivity |].
  unfold attr, np_load, ret, raise. cbn.
  destruct (disk (join (join (in_dir (self w1)) case_raw) (imaging_file s)));
    [| reflexivity].
  destruct (disk (join (join (in_dir (self w1)) case_raw)
                    (segmentation_file s))); reflexivity.
Qed.

Lemma pseudo_load_slices_one_run (case_raw : string) (w : world) :
  pseudo_load_slices 1 case_raw w
  = match get_slice_idx_str case_raw w with
    | (inl e, w1) => (inl e, w1)
    | (inr (s, _), w1) =>
        let fp := join (in_dir (self w)) case_raw in
        match disk (join fp (imaging_file s)) with
        | None => (inl (FileNotFoundError (join fp (imaging_file s))), w1)
        | Some cx =>
            match disk (join fp (segmentation_file s)) with
            | None =>
                (inl (FileNotFoundError (join fp (segmentation_file s))), w1)
            | Some cy => (inr (Some (expand_last cx, expand_last cy)), w1)
            end
        end
    end.
Proof.
  unfold pseudo_load_slices, bind, attr.
  destruct (get_slice_idx_str case_raw w) as [[e | [s c]] w1];
    [reflexivity |].
  unfold np_load, ret, raise. cbn.
  destruct (disk (join (join (in_dir (self w)) case_raw) (imaging_file s)));
    [| reflexivity].
  destruct (disk (join (join (in_dir (self w)) case_raw)
                    (segmentation_file s))); reflexivity.
Qed.

(** C4: with [num_pseudo_slices = 1] the pseudo-volume dataset loads what
    the single-slice dataset with the same attributes loads from the same
    random state: the same result (or the same exception) and the same
    random state afterwards.  When the drawn slice [s] has its image [cx]
    and its mask [cy] on disk, both return the pair of that image and that
    mask, value by value and with their element types, each of shape
    (rows, columns, 1); and whatever is returned is such a pair, of the
    files of the slice that was drawn. *)
Theorem window_one_is_single_slice (d : dataset scalar) (g : G)
    (case_raw : string) :
  let wp := {| self := set_num_pseudo_slices (Some 1%Z) d;
               random_state := g |} in
  let ws := {| self := set_num_pseudo_slices None d; random_state := g |} in
  let fp := join (in_dir d) case_raw in
  fst (load_slices case_raw wp) = fst (load_slices case_raw ws) /\
  random_state (snd (load_slices case_raw wp))
  = random_state (snd (load_slices case_raw ws)) /\
  (forall (s : string) (c : Z) (w1 : world) (cx cy : array2 scalar),
      get_slice_idx_str case_raw wp = (inr (s, c), w1) ->
      disk (join fp (imaging_file s)) = Some cx ->
      disk (join fp (segmentation_file s)) = Some cy ->
      exists x y,
        load_slices case_raw wp = (inr (Some (x, y)), w1) /\
        fst (load_slices case_raw ws) = inr (Some (x, y)) /\
        (a3_rows x, a3_cols x, a3_chans x) = (a2_rows cx, a2_cols cx, 1) /\
        a3_dtype x = a2_dtype cx /\
        (forall i j, a3_at x i j 0 = a2_at cx i j) /\
        (a3_rows y, a3_cols y, a3_chans y) = (a2_rows cy, a2_cols cy, 1) /\
        a3_dtype y = a2_dtype cy /\
        (forall i j, a3_at y i j 0 = a2_at cy i j)) /\
  (forall r,
      fst (load_slices case_raw wp) = inr r ->
      exists s c cx cy x y,
        fst (get_slice_idx_str case_raw wp) = inr (s, c) /\
        s = parse_slice_idx_to_str c /\
        disk (join fp (imaging_file s)) = Some cx /\
        disk (join fp (segmentation_file s)) = Some cy /\
        r = Some (x, y) /\
        (a3_rows x, a3_cols x, a3_chans x) = (a2_rows cx, a2_cols cx, 1) /\
        a3_dtype x = a2_dtype cx /\
        (forall i j, a3_at x i j 0 = a2_at cx i j) /\
        (a3_rows y, a3_cols y, a3_chans y) = (a2_rows cy, a2_cols cy, 1) /\
        a3_dtype y = a2_dtype cy /\
        (forall i j, a3_at y i j 0 = a2_at cy i j)).
Proof.
  intros wp ws fp. subst wp ws fp.
  rewrite !load_slices_dispatch.
  cbn [self num_pseudo_slices set_num_pseudo_slices].
  rewrite slice_load_slices_run, pseudo_load_slices_one_run.
  pose proof (get_slice_idx_str_parse case_raw
                {| self := set_num_pseudo_slices (Some 1%Z) d;
                   random_state := g |}) as Hparse.
  rewrite !get_slice_idx_str_variant.
  rewrite get_slice_idx_str_variant in Hparse.
  destruct (get_slice_idx_str case_raw {| self := d; random_state := g |})
    as [[e | [s c]] w0]; cbn in *.
  - split; [reflexivity |]. split; [reflexivity |].
    split; [intros ? ? ? ? ? [=] | intros ? [=]].
  - destruct (Hparse _ s c eq_refl) as [Hs _]. clear Hparse.
    destruct (disk (join (join (in_dir d) case_raw) (imaging_file s)))
      as [cx |] eqn:Hx; cbn.
    2: { split; [reflexivity |]. split; [reflexivity |].
         split; [| intros ? [=]].
         intros s' c' w1 cx' cy' [= <- <- <-] Hx'. congruence. }
    destruct (disk (join (join (in_dir d) case_raw) (segmentation_file s)))
      as [cy |] eqn:Hy; cbn.
    2: { split; [reflexivity |]. split; [reflexivity |].
         split; [| intros ? [=]].
         intros s' c' w1 cx' cy' [= <- <- <-] _ Hy'. congruence. }
    split; [reflexivity |]. split; [reflexivity |]. split.
    + intros s' c' w1 cx' cy' [= <- <- <-] Hx' Hy'.
      rewrite Hx in Hx'. rewrite Hy in Hy'.
      injection Hx' as <-. injection Hy' as <-.
      exists (expand_last cx), (expand_last cy).
      unfold expand_last. cbn. repeat split.
    + intros r [= <-].
      exists s, c, cx, cy, (expand_last cx), (expand_last cy).
      unfold expand_last. cbn. repeat split; auto.
Qed.

(** ** The window of the pseudo-volume dataset *)

Lemma combine_map_self (A B : Type) (f : A -> B) (l : list A) :
  combine l (map f l) = map (fun a => (a, f a)) l.
Proof.
  induction l as [| a l IH]; simpl; [reflexivity | now rewrite IH].
Qed.

Lemma enumerate_py_range (lo hi : Z) :
  enumerate (py_range lo hi)
  = map (fun k => (k, (lo + Z.of_nat k)%Z)) (seq 0 (Z.to_nat (hi - lo))).
Proof.
  unfold enumerate, py_range.
  rewrite length_map, length_seq. apply combine_map_self.
Qed.

Lemma for_each_cons (A S : Type) (body : S -> A -> M S) (a : A)
    (l : list A) (s : S) (w : world) :
  for_each body (a :: l) s w
  = match body s a w with
    | (inl e, w') => (inl e, w')
    | (inr s', w') => for_each body l s' w'
    end.
Proof. reflexivity. Qed.

Lemma load_neighbor_run (fp : string) (x : array3 scalar) (idx : nat)
    (slice_idx : Z) (w : world) :
  load_neighbor fp x (idx, slice_idx) w
  = match disk (join fp (imaging_file (parse_slice_idx_to_str slice_idx))) with
    | Some b => (setitem_channel x idx b, w)
    | None => (inr x, w)
    end.
Proof.
  unfold load_neighbor, isfile, np_load, bind, ret, lift.
  destruct (disk _); reflexivity.
Qed.

(** Assigning an array of the shape of the buffer's slices. *)
Lemma setitem_channel_same_shape (x : array3 scalar) (idx : nat)
    (b : array2 scalar) :
  idx < a3_chans x ->
  a2_rows b = a3_rows x ->
  a2_cols b = a3_cols x ->
  setitem_channel x idx b
  = inr {| a3_dtype := a3_dtype x;
           a3_rows := a3_rows x;
           a3_cols := a3_cols x;
           a3_chans := a3_chans x;
           a3_at := fun i j k =>
             if Nat.eqb k idx then astype (a2_dtype b) (a3_dtype x) (a2_at b i j)
             else a3_at x i j k |}.
Proof.
  intros Hidx Hr Hc. unfold setitem_channel, axis_fits, axis_index.
  destruct (Nat.ltb_spec idx (a3_chans x)); [| lia].
  rewrite Hr, Hc, !Nat.eqb_refl. reflexivity.
Qed.

(** The invariant of the loop: after the positions [a, a + m) of the
    window, the channels at these positions hold the neighbours found on
    disk, and every other channel is as before. *)
Lemma window_loop (fp : string) (lo : Z) (m : nat) :
  forall (a : nat) (x0 : array3 scalar) (w : world),
    a + m <= a3_chans x0 ->
    (forall k b,
        a <= k < a + m ->
        disk (join fp (imaging_file
                         (parse_slice_idx_to_str (lo + Z.of_nat k)))) = Some b ->
        a2_rows b = a3_rows x0 /\ a2_cols b = a3_cols x0) ->
    exists x,
      for_each (load_neighbor fp)
        (map (fun k => (k, (lo + Z.of_nat k)%Z)) (seq a m)) x0 w = (inr x, w) /\
      a3_dtype x = a3_dtype x0 /\
      a3_rows x = a3_rows x0 /\
      a3_cols x = a3_cols x0 /\
      a3_chans x = a3_chans x0 /\
      forall i j k,
        a3_at x i j k
        = if (Nat.leb a k && Nat.ltb k (a + m))%bool then
            match disk (join fp (imaging_file
                                   (parse_slice_idx_to_str (lo + Z.of_nat k)))) with
            | Some b => astype (a2_dtype b) (a3_dtype x0) (a2_at b i j)
            | None => a3_at x0 i j k
            end
          else a3_at x0 i j k.
Proof.
  induction m as [| m IH]; intros a x0 w Hchans Hshape.
  - exists x0. simpl. repeat split.
    intros i j k.
    destruct (Nat.leb_spec a k); destruct (Nat.ltb_spec k (a + 0)); simpl;
      try reflexivity; lia.
  - simpl seq. simpl map. rewrite for_each_cons, load_neighbor_run.
    destruct (disk (join fp (imaging_file
                               (parse_slice_idx_to_str (lo + Z.of_nat a)))))
      as [b |] eqn:Hfile.
    + destruct (Hshape a b ltac:(lia) Hfile) as [Hr Hc].
      rewrite setitem_channel_same_shape by (auto; lia).
      match goal with
      | |- context [for_each _ _ ?x1 w] => set (x1' := x1)
      end.
      destruct (IH (S a) x1' w) as (x & Hrun & Hd & Hrows & Hcols & Hch & Hat).
      { subst x1'. simpl. lia. }
      { intros k b' Hk Hb'. subst x1'. simpl.
        apply (Hshape k b'); [lia | exact Hb']. }
      exists x. rewrite Hrun. subst x1'.
      cbn [a3_dtype a3_rows a3_cols a3_chans a3_at] in *.
      repeat split; auto.
      intros i j k. rewrite Hat.
      destruct (Nat.eqb_spec k a) as [-> | Hne].
      * destruct (Nat.leb_spec (S a) a); [lia |].
        destruct (Nat.leb_spec a a); [| lia].
        destruct (Nat.ltb_spec a (a + S m)); [| lia].
        simpl. rewrite Hfile. reflexivity.
      * assert (E1 : Nat.leb (S a) k = Nat.leb a k)
          by (destruct (Nat.leb_spec (S a) k); destruct (Nat.leb_spec a k);
              auto; lia).
        assert (E2 : Nat.ltb k (S a + m) = Nat.ltb k (a + S m))
          by (f_equal; lia).
        rewrite E1, E2. reflexivity.
    + destruct (IH (S a) x0 w) as (x & Hrun & Hd & Hrows & Hcols & Hch & Hat).
      { lia. }
      { intros k b' Hk Hb'. apply (Hshape k b'); [lia | exact Hb']. }
      exists x. rewrite Hrun. repeat split; auto.
      intros i j k. rewrite Hat.
      destruct (Nat.eqb_spec k a) as [-> | Hne].
      * destruct (Nat.leb_spec (S a) a); [lia |].
        destruct (Nat.leb_spec a a); [| lia].
        destruct (Nat.ltb_spec a (a + S m)); [| lia].
        simpl. rewrite Hfile. reflexivity.
      * assert (E1 : Nat.leb (S a) k = Nat.leb a k)
          by (destruct (Nat.leb_spec (S a) k); destruct (Nat.leb_spec a k);
              auto; lia).
        assert (E2 : Nat.ltb k (S a + m) = Nat.ltb k (a + S m))
          by (f_equal; lia).
        rewrite E1, E2. reflexivity.
Qed.

(** C3, as the code has it: the window.  For [num_pseudo_slices = n > 1],
    with the centre image and mask of the drawn slice on disk and every
    stored neighbour of the window of the centre image's shape (H, W),
    [load_slices] returns a float64 buffer of shape (H, W, n).  Position
    [k] of the window [centre - h, centre + h], [h = (n - 1) / 2], holds
    the image of that neighbour where its file exists (its values, stored
    in the float64 buffer) and zeros where it does not; a missing
    neighbour raises nothing.  The mask returned is the stored centre
    mask, value by value and with its element type, one channel added: its
    shape is that of the mask file, which nothing compares with (H, W). *)
Theorem pseudo_window_load (w w1 : world) (n : Z) (case_raw s : string)
    (c : Z) (cx cy : array2 scalar) :
  let fp := join (in_dir (self w)) case_raw in
  let h := ((n - 1) / 2)%Z in
  let neighbor (k : nat) :=
    disk (join fp (imaging_file
                     (parse_slice_idx_to_str (c - h + Z.of_nat k)))) in
  num_pseudo_slices (self w) = Some n ->
  (1 < n)%Z ->
  get_slice_idx_str case_raw w = (inr (s, c), w1) ->
  disk (join fp (imaging_file s)) = Some cx ->
  disk (join fp (segmentation_file s)) = Some cy ->
  (forall k b,
      (Z.of_nat k <= 2 * h)%Z -> neighbor k = Some b ->
      a2_rows b = a2_rows cx /\ a2_cols b = a2_cols cx) ->
  exists x y,
    load_slices case_raw w = (inr (Some (x, y)), w1) /\
    (a3_rows x, a3_cols x, a3_chans x)
    = (a2_rows cx, a2_cols cx, Z.to_nat n) /\
    a3_dtype x = Float64 /\
    (forall k i j,
        (Z.of_nat k <= 2 * h)%Z -> i < a2_rows cx -> j < a2_cols cx ->
        a3_at x i j k
        = match neighbor k with
          | Some b => astype (a2_dtype b) Float64 (a2_at b i j)
          | None => zero
          end) /\
    (a3_rows y, a3_cols y, a3_chans y) = (a2_rows cy, a2_cols cy, 1) /\
    a3_dtype y = a2_dtype cy /\
    (forall i j, a3_at y i j 0 = a2_at cy i j).
Proof.
  intros fp h neighbor Hn Hgt Hdraw Hx Hy Hshape.
  assert (Hh : (0 <= 2 * h <= n - 1)%Z).
  { subst h. pose proof (Z.mul_div_le (n - 1) 2 ltac:(lia)).
    assert (0 <= (n - 1) / 2)%Z by (apply Z.div_pos; lia). lia. }
  rewrite load_slices_dispatch, Hn.
  rewrite (pseudo_load_slices_center n _ _ _ _ _ _ _ Hdraw Hx Hy).
  destruct (Z.eqb_spec n 1); [lia |].
  destruct (Z.ltb_spec 1 n); [| lia].
  rewrite enumerate_py_range. fold fp. fold h.
  replace (c + h + 1 - (c - h))%Z with (2 * h + 1)%Z by lia.
  destruct (window_loop fp (c - h) (Z.to_nat (2 * h + 1)) 0
              (np_zeros zero (a2_rows cx) (a2_cols cx) (Z.to_nat n)) w1)
    as (x & Hrun & Hd & Hr & Hc & Hch & Hat).
  { unfold np_zeros. cbn [a3_chans]. lia. }
  { intros k b Hk Hb. unfold np_zeros. cbn [a3_rows a3_cols].
    apply (Hshape k b); [lia | exact Hb]. }
  exists x, (expand_last cy).
  unfold bind. rewrite Hrun.
  unfold np_zeros in Hd, Hr, Hc, Hch, Hat.
  cbn [a3_dtype a3_rows a3_cols a3_chans a3_at] in Hd, Hr, Hc, Hch, Hat.
  split; [reflexivity |].
  split; [rewrite Hr, Hc, Hch; reflexivity |].
  split; [exact Hd |].
  split.
  - intros k i j Hk _ _. rewrite Hat. subst neighbor.
    destruct (Nat.leb_spec 0 k); [| lia].
    destruct (Nat.ltb_spec k (0 + Z.to_nat (2 * h + 1))); [| lia].
    reflexivity.
  - unfold expand_last. cbn [a3_rows a3_cols a3_chans a3_dtype a3_at].
    split; [reflexivity |]. split; [reflexivity |]. intros i j. reflexivity.
Qed.

(** ** Conversion to tensors *)

Lemma dtype_eqb_eq (a b : dtype) : dtype_eqb a b = true -> a = b.
Proof. destruct a, b; simpl; congruence. Qed.

Lemma tensor_to_dtype (d : dtype) (t : array3 scalar) :
  a3_dtype (tensor_to d t) = d.
Proof.
  unfold tensor_to. destruct (dtype_eqb (a3_dtype t) d) eqn:E.
  - apply dtype_eqb_eq. exact E.
  - reflexivity.
Qed.


(** ** Indexing the dataset *)

Lemma seq_getitem_in_range (A : Type) (a : list A) (idx : Z) :
  (- Z.of_nat (length a) <= idx < Z.of_nat (length a))%Z ->
  exists x,
    seq_getitem a idx = inr x /\
    nth_error a (Z.to_nat (idx mod Z.of_nat (length a))) = Some x.
Proof.
  intros Hr. unfold seq_getitem.
  destruct (Z.ltb_spec idx (- Z.of_nat (length a))); [lia |].
  destruct (Z.leb_spec (Z.of_nat (length a)) idx); [lia |]. simpl.
  assert (Hmod : (idx mod Z.of_nat (length a)
                  = if idx <? 0 then idx + Z.of_nat (length a) else idx)%Z).
  { destruct (Z.ltb_spec idx 0).
    - symmetry. apply (Z.mod_unique_pos _ _ (-1)); lia.
    - apply Z.mod_small. lia. }
  rewrite Hmod.
  destruct (nth_error a _) as [x |] eqn:E; [eauto |].
  apply nth_error_None in E. destruct (Z.ltb_spec idx 0); lia.
Qed.

Lemma seq_getitem_out_of_range (A : Type) (a : list A) (idx : Z) :
  (idx < - Z.of_nat (length a) \/ Z.of_nat (length a) <= idx)%Z ->
  seq_getitem a idx
  = if fits_index idx then inl (IndexError idx (length a))
    else inl (OverflowError "Python int too large to convert to C long").
Proof.
  intros Hr. unfold seq_getitem.
  destruct (Z.ltb_spec idx (- Z.of_nat (length a)));
    destruct (Z.leb_spec (Z.of_nat (length a)) idx); simpl; try reflexivity.
  lia.
Qed.

Lemma fits_index_spec (idx : Z) :
  fits_index idx = true <-> (- 2 ^ 63 <= idx < 2 ^ 63)%Z.
Proof.
  unfold fits_index. rewrite andb_true_iff, Z.leb_le, Z.ltb_lt.
  split; intros [H1 H2]; split; assumption.
Qed.

(** [__getitem__] is the lookup of the case followed by [item_of_case]. *)
Lemma getitem_lookup (idx : Z) (w : world) :
  __getitem__ idx w
  = match seq_getitem (im_ids (self w)) idx with
    | inl e => (inl e, w)
    | inr case_id => item_of_case case_id w
    end.
Proof.
  unfold __getitem__, bind at 1, attr at 1. unfold bind at 1, lift.
  destruct (seq_getitem (im_ids (self w)) idx); reflexivity.
Qed.


(** * Further properties of the code *)

(** ** The two draws of [get_slice_idx], step by step *)

Lemma get_slice_idx_run (case_raw : string) (w : world) :
  get_slice_idx case_raw w
  = match choice_p_check (length (classes (self w)))
            (sampling_distribution (self w)) with
    | Some e => (inl e, w)
    | None =>
        let kg := weighted_index (sampling_distribution (self w))
                    (random_state w) in
        let w1 := {| self := self w; random_state := snd kg |} in
        let c := nth (fst kg) (classes (self w)) ""%string in
        match dict_get (pos_slice_dict (self w)) case_raw with
        | None => (inl (KeyError case_raw), w1)
        | Some by_class =>
            match dict_get by_class c with
            | None => (inl (KeyError c), w1)
            | Some l =>
                if Nat.eqb (length l) 0 then
                  (inl (ValueError
                          "'a' cannot be empty unless no samples are taken"),
                   w1)
                else
                  let jg := uniform_index (length l) (snd kg) in
                  (inr (nth (fst jg) l 0%Z),
                   {| self := self w; random_state := snd jg |})
            end
        end
    end.
Proof.
  unfold get_slice_idx, sample_class, np_random_choice_p, np_random_choice,
    dict_getitem, bind, attr, draw, ret, raise.
  destruct (choice_p_check (length (classes (self w)))
              (sampling_distribution (self w))); [reflexivity |]. cbn.
  destruct (weighted_index (sampling_distribution (self w)) (random_state w))
    as [k g1]. cbn.
  destruct (dict_get (pos_slice_dict (self w)) case_raw) as [by_class |];
    [| reflexivity]. cbn.
  destruct (dict_get by_class (nth k (classes (self w)) ""%string)) as [l |];
    [| reflexivity]. cbn.
  destruct (Nat.eqb (length l) 0); [reflexivity |]. cbn.
  destruct (uniform_index (length l) g1) as [j g2]. reflexivity.
Qed.

Lemma weighted_draw_positive (p : list float) (cs : list string) (g : G) :
  choice_p_check (length cs) p = None ->
  exists x,
    nth_error cs (fst (weighted_index p g))
    = Some (nth (fst (weighted_index p g)) cs ""%string) /\
    nth_error p (fst (weighted_index p g)) = Some x /\
    (0 <? x)%float = true.
Proof.
  intros Hacc.
  destruct (choice_p_check_size _ _ Hacc) as [Hn Hlen].
  assert (Hp : p <> []) by (destruct p; simpl in *; congruence).
  pose proof (@weighted_index_range _ _ p g Hp) as Hk.
  destruct (nth_error p (fst (weighted_index p g))) as [x |] eqn:Hx;
    [| apply nth_error_None in Hx; lia].
  exists x. repeat split.
  - apply nth_error_nth'. lia.
  - apply (@weighted_index_support _ _ p g); [rewrite Hlen |]; assumption.
Qed.

(** X1: a distribution whose length differs from the number of classes
    passes the constructor's check of the sum, but every draw then raises
    numpy's [ValueError], before any entropy is consumed. *)
Theorem draw_rejects_wrong_length (w : world) (case_raw : string) :
  classes (self w) <> [] ->
  length (sampling_distribution (self w)) <> length (classes (self w)) ->
  get_slice_idx case_raw w
  = (inl (ValueError "'a' and 'p' must have same size"), w) /\
  get_slice_idx_str case_raw w
  = (inl (ValueError "'a' and 'p' must have same size"), w).
Proof.
  intros Hne Hlen.
  assert (Hrun : get_slice_idx case_raw w
                 = (inl (ValueError "'a' and 'p' must have same size"), w)).
  { rewrite get_slice_idx_run. unfold choice_p_check.
    destruct (classes (self w)) as [| c cs]; [congruence |].
    change (Nat.eqb (length (c :: cs)) 0) with false. cbv iota.
    destruct (Nat.eqb_spec (length (sampling_distribution (self w)))
                (length (c :: cs))); [contradiction | reflexivity]. }
  split; [exact Hrun |].
  unfold get_slice_idx_str, bind. rewrite Hrun. reflexivity.
Qed.

(** X2: a case that is not a key of the catalog raises [KeyError] with
    the case name; the class has been drawn by then, so the random state
    has advanced by the weighted draw although nothing is returned. *)
Theorem draw_missing_case (w : world) (case_raw : string) :
  choice_p_check (length (classes (self w)))
    (sampling_distribution (self w)) = None ->
  dict_get (pos_slice_dict (self w)) case_raw = None ->
  get_slice_idx case_raw w
  = (inl (KeyError case_raw),
     {| self := self w;
        random_state :=
          snd (weighted_index (sampling_distribution (self w))
                 (random_state w)) |}).
Proof.
  intros Hacc Hcase. rewrite get_slice_idx_run, Hacc. cbv zeta.
  rewrite Hcase. reflexivity.
Qed.

(** X3: there is no fallback to another class: when the case lists no
    slice for any class of positive probability, every draw raises
    numpy's [ValueError] for an empty population. *)
Theorem draw_empty_lists (w : world) (case_raw : string)
    (by_class : dict (list Z)) :
  choice_p_check (length (classes (self w)))
    (sampling_distribution (self w)) = None ->
  dict_get (pos_slice_dict (self w)) case_raw = Some by_class ->
  (forall k c x,
      nth_error (classes (self w)) k = Some c ->
      nth_error (sampling_distribution (self w)) k = Some x ->
      (0 <? x)%float = true ->
      dict_get by_class c = Some []) ->
  exists g,
    get_slice_idx case_raw w
    = (inl (ValueError "'a' cannot be empty unless no samples are taken"),
       {| self := self w; random_state := g |}).
Proof.
  intros Hacc Hcase Hempty.
  destruct (weighted_draw_positive _ _ (random_state w) Hacc)
    as (x & Hc & Hx & Hpos).
  rewrite get_slice_idx_run, Hacc. cbv zeta. rewrite Hcase.
  rewrite (Hempty _ _ _ Hc Hx Hpos). simpl. eauto.
Qed.

(** X4: whatever the catalog holds, an index that [get_slice_idx] returns
    was listed for the case under a class of positive probability, and the
    call consumed exactly one weighted draw and one uniform draw. *)
Theorem draw_result_provenance (w w' : world) (case_raw : string) (idx : Z) :
  get_slice_idx case_raw w = (inr idx, w') ->
  exists k c x by_class l,
    nth_error (classes (self w)) k = Some c /\
    nth_error (sampling_distribution (self w)) k = Some x /\
    (0 <? x)%float = true /\
    dict_get (pos_slice_dict (self w)) case_raw = Some by_class /\
    dict_get by_class c = Some l /\
    In idx l /\
    w' = {| self := self w;
            random_state :=
              snd (uniform_index (length l)
                     (snd (weighted_index (sampling_distribution (self w))
                             (random_state w)))) |}.
Proof.
  rewrite get_slice_idx_run.
  destruct (choice_p_check (length (classes (self w)))
              (sampling_distribution (self w))) as [e |] eqn:Hacc;
    [discriminate |].
  destruct (weighted_draw_positive _ _ (random_state w) Hacc)
    as (x & Hc & Hx & Hpos).
  cbv zeta.
  destruct (dict_get (pos_slice_dict (self w)) case_raw) as [by_class |];
    [| discriminate].
  destruct (dict_get by_class _) as [l |] eqn:Hl; [| discriminate].
  destruct (Nat.eqb_spec (length l) 0) as [| Hne]; [discriminate |].
  intros [= <- <-].
  eexists _, _, x, by_class, l. repeat split; eauto.
  apply nth_In. apply (@uniform_index_range _ _). lia.
Qed.

(** X5: the draw reads the classes, the distribution and the catalog
    only: two datasets that agree on them (whatever their case list,
    directory, stages and window size) draw the same slice index from the
    same random state, and leave the same random state. *)
Theorem draw_depends_on_sampling_attributes (d d' : dataset scalar) (g : G)
    (case_raw : string) :
  classes d = classes d' ->
  sampling_distribution d = sampling_distribution d' ->
  pos_slice_dict d = pos_slice_dict d' ->
  fst (get_slice_idx_str case_raw {| self := d; random_state := g |})
  = fst (get_slice_idx_str case_raw {| self := d'; random_state := g |}) /\
  random_state
    (snd (get_slice_idx_str case_raw {| self := d; random_state := g |}))
  = random_state
      (snd (get_slice_idx_str case_raw {| self := d'; random_state := g |})).
Proof.
  intros Hc Hp Hcat.
  unfold get_slice_idx_str, bind, ret. rewrite !get_slice_idx_run.
  cbn [self random_state]. rewrite <- Hc, <- Hp, <- Hcat.
  destruct (choice_p_check (length (classes d)) (sampling_distribution d));
    [split; reflexivity |].
  cbv zeta.
  destruct (dict_get (pos_slice_dict d) case_raw) as [by_class |];
    [| split; reflexivity].
  destruct (dict_get by_class _) as [l |]; [| split; reflexivity].
  destruct (Nat.eqb (length l) 0); split; reflexivity.
Qed.

(** ** Reading the centre slice *)

Lemma get_slice_idx_str_self (case_raw : string) (w : world) :
  self (snd (get_slice_idx_str case_raw w)) = self w.
Proof. apply keeps_self_get_slice_idx_str. Qed.

Lemma pseudo_load_slices_run (n : Z) (case_raw : string) (w : world) :
  pseudo_load_slices n case_raw w
  = match get_slice_idx_str case_raw w with
    | (inl e, w1) => (inl e, w1)
    | (inr (s, c), w1) =>
        let fp := join (in_dir (self w)) case_raw in
        match disk (join fp (imaging_file s)) with
        | None => (inl (FileNotFoundError (join fp (imaging_file s))), w1)
        | Some cx =>
            match disk (join fp (segmentation_file s)) with
            | None =>
                (inl (FileNotFoundError (join fp (segmentation_file s))), w1)
            | Some cy =>
                (if (n =? 1)%Z then
                   ret (Some (expand_last cx, expand_last cy))
                 else if (1 <? n)%Z then
                   x_arr <- for_each (load_neighbor fp)
                              (enumerate (py_range (c - (n - 1) / 2)
                                            (c + (n - 1) / 2 + 1)))
                              (np_zeros zero (a2_rows cx) (a2_cols cx)
                                 (Z.to_nat n));;
                   ret (Some (x_arr, expand_last cy))
                 else ret None) w1
            end
        end
    end.
Proof.
  destruct (get_slice_idx_str case_raw w) as [[e | [s c]] w1] eqn:Hdraw.
  - unfold pseudo_load_slices, bind, attr. rewrite Hdraw. reflexivity.
  - cbv zeta.
    destruct (disk (join (join (in_dir (self w)) case_raw) (imaging_file s)))
      as [cx |] eqn:Hx.
    + destruct (disk (join (join (in_dir (self w)) case_raw)
                        (segmentation_file s))) as [cy |] eqn:Hy.
      * apply (pseudo_load_slices_center n _ _ _ _ _ _ _ Hdraw Hx Hy).
      * unfold pseudo_load_slices, bind, attr. rewrite Hdraw.
        unfold np_load. rewrite Hx, Hy. reflexivity.
    + unfold pseudo_load_slices, bind, attr. rewrite Hdraw.
      unfold np_load. rewrite Hx. reflexivity.
Qed.

(** X6: for both classes the centre slice is required: once an index is
    drawn, a missing image file raises [FileNotFoundError] with the path
    of the image, and a missing mask file (the image being there) raises
    it with the path of the mask.  The image is read first; the draw has
    been consumed in both cases. *)
Theorem load_slices_missing_file (w w1 : world) (case_raw s : string) (c : Z) :
  let fp := join (in_dir (self w)) case_raw in
  get_slice_idx_str case_raw w = (inr (s, c), w1) ->
  (disk (join fp (imaging_file s)) = None ->
   load_slices case_raw w
   = (inl (FileNotFoundError (join fp (imaging_file s))), w1)) /\
  (forall cx,
      disk (join fp (imaging_file s)) = Some cx ->
      disk (join fp (segmentation_file s)) = None ->
      load_slices case_raw w
      = (inl (FileNotFoundError (join fp (segmentation_file s))), w1)).
Proof.
  intros fp Hdraw.
  assert (Hself : self w1 = self w).
  { pose proof (get_slice_idx_str_self case_raw w) as H.
    rewrite Hdraw in H. exact H. }
  rewrite load_slices_dispatch.
  destruct (num_pseudo_slices (self w)) as [n |].
  - rewrite pseudo_load_slices_run, Hdraw. cbv zeta. fold fp. split.
    + intros Hx. rewrite Hx. reflexivity.
    + intros cx Hx Hy. rewrite Hx, Hy. reflexivity.
  - rewrite slice_load_slices_run, Hdraw. cbv zeta. rewrite Hself. fold fp.
    split.
    + intros Hx. rewrite Hx. reflexivity.
    + intros cx Hx Hy. rewrite Hx, Hy. reflexivity.
Qed.

(** X7: the single-slice dataset returns the image and the mask of the
    drawn slice as stored: same element type, same values, with shape
    (H, W) turned into (H, W, 1); the image and the mask may have
    different shapes, nothing compares them. *)
Theorem slice_load_slices_returns_files (w w1 : world) (case_raw s : string)
    (c : Z) (x y : array2 scalar) :
  let fp := join (in_dir (self w)) case_raw in
  num_pseudo_slices (self w) = None ->
  get_slice_idx_str case_raw w = (inr (s, c), w1) ->
  disk (join fp (imaging_file s)) = Some x ->
  disk (join fp (segmentation_file s)) = Some y ->
  exists x3 y3,
    load_slices case_raw w = (inr (Some (x3, y3)), w1) /\
    (a3_rows x3, a3_cols x3, a3_chans x3) = (a2_rows x, a2_cols x, 1) /\
    (a3_rows y3, a3_cols y3, a3_chans y3) = (a2_rows y, a2_cols y, 1) /\
    a3_dtype x3 = a2_dtype x /\
    a3_dtype y3 = a2_dtype y /\
    forall i j,
      a3_at x3 i j 0 = a2_at x i j /\ a3_at y3 i j 0 = a2_at y i j.
Proof.
  intros fp Hn Hdraw Hx Hy.
  assert (Hself : self w1 = self w).
  { pose proof (get_slice_idx_str_self case_raw w) as H.
    rewrite Hdraw in H. exact H. }
  exists (expand_last x), (expand_last y).
  rewrite load_slices_dispatch, Hn, slice_load_slices_run, Hdraw.
  cbv zeta. rewrite Hself. fold fp. rewrite Hx, Hy.
  repeat split.
Qed.

(** ** Neighbours of another shape *)

(** The assigned array fits the slices of the buffer after broadcasting. *)
Lemma setitem_channel_fits (x : array3 scalar) (idx : nat) (b : array2 scalar) :
  idx < a3_chans x ->
  (axis_fits (a2_rows b) (a3_rows x)
   && axis_fits (a2_cols b) (a3_cols x))%bool = true ->
  setitem_channel x idx b
  = inr {| a3_dtype := a3_dtype x;
           a3_rows := a3_rows x;
           a3_cols := a3_cols x;
           a3_chans := a3_chans x;
           a3_at := fun i j k =>
             if Nat.eqb k idx then
               astype (a2_dtype b) (a3_dtype x)
                 (a2_at b (axis_index (a2_rows b) (a3_rows x) i)
                          (axis_index (a2_cols b) (a3_cols x) j))
             else a3_at x i j k |}.
Proof.
  intros Hidx Hfits. unfold setitem_channel.
  destruct (Nat.ltb_spec idx (a3_chans x)); [| lia].
  rewrite Hfits. reflexivity.
Qed.

Lemma setitem_channel_misfit (x : array3 scalar) (idx : nat)
    (b : array2 scalar) :
  idx < a3_chans x ->
  (axis_fits (a2_rows b) (a3_rows x)
   && axis_fits (a2_cols b) (a3_cols x))%bool = false ->
  setitem_channel x idx b
  = inl (ValueError "could not broadcast input array").
Proof.
  intros Hidx Hfits. unfold setitem_channel.
  destruct (Nat.ltb_spec idx (a3_chans x)); [| lia].
  rewrite Hfits. reflexivity.
Qed.

Lemma window_loop_broadcast (fp : string) (lo : Z) (m : nat) :
  forall (a : nat) (x0 : array3 scalar) (w : world),
    a + m <= a3_chans x0 ->
    (forall k b,
        a <= k < a + m ->
        disk (join fp (imaging_file
                         (parse_slice_idx_to_str (lo + Z.of_nat k)))) = Some b ->
        (axis_fits (a2_rows b) (a3_rows x0)
         && axis_fits (a2_cols b) (a3_cols x0))%bool = true) ->
    exists x,
      for_each (load_neighbor fp)
        (map (fun k => (k, (lo + Z.of_nat k)%Z)) (seq a m)) x0 w = (inr x, w) /\
      a3_dtype x = a3_dtype x0 /\
      a3_rows x = a3_rows x0 /\
      a3_cols x = a3_cols x0 /\
      a3_chans x = a3_chans x0 /\
      forall i j k,
        a3_at x i j k
        = if (Nat.leb a k && Nat.ltb k (a + m))%bool then
            match disk (join fp (imaging_file
                                   (parse_slice_idx_to_str (lo + Z.of_nat k)))) with
            | Some b =>
                astype (a2_dtype b) (a3_dtype x0)
                  (a2_at b (axis_index (a2_rows b) (a3_rows x0) i)
                           (axis_index (a2_cols b) (a3_cols x0) j))
            | None => a3_at x0 i j k
            end
          else a3_at x0 i j k.
Proof.
  induction m as [| m IH]; intros a x0 w Hchans Hfits.
  - exists x0. simpl. repeat split.
    intros i j k.
    destruct (Nat.leb_spec a k); destruct (Nat.ltb_spec k (a + 0)); simpl;
      try reflexivity; lia.
  - simpl seq. simpl map. rewrite for_each_cons, load_neighbor_run.
    destruct (disk (join fp (imaging_file
                               (parse_slice_idx_to_str (lo + Z.of_nat a)))))
      as [b |] eqn:Hfile.
    + rewrite setitem_channel_fits;
        [| lia | apply (Hfits a b); [lia | exact Hfile]].
      match goal with
      | |- context [for_each _ _ ?x1 w] => set (x1' := x1)
      end.
      destruct (IH (S a) x1' w) as (x & Hrun & Hd & Hrows & Hcols & Hch & Hat).
      { subst x1'. simpl. lia. }
      { intros k b' Hk Hb'. subst x1'. simpl.
        apply (Hfits k b'); [lia | exact Hb']. }
      exists x. rewrite Hrun. subst x1'.
      cbn [a3_dtype a3_rows a3_cols a3_chans a3_at] in *.
      repeat split; auto.
      intros i j k. rewrite Hat.
      destruct (Nat.eqb_spec k a) as [-> | Hne].
      * destruct (Nat.leb_spec (S a) a); [lia |].
        destruct (Nat.leb_spec a a); [| lia].
        destruct (Nat.ltb_spec a (a + S m)); [| lia].
        simpl. rewrite Hfile. reflexivity.
      * assert (E1 : Nat.leb (S a) k = Nat.leb a k)
          by (destruct (Nat.leb_spec (S a) k); destruct (Nat.leb_spec a k);
              auto; lia).
        assert (E2 : Nat.ltb k (S a + m) = Nat.ltb k (a + S m))
          by (f_equal; lia).
        rewrite E1, E2. reflexivity.
    + destruct (IH (S a) x0 w) as (x & Hrun & Hd & Hrows & Hcols & Hch & Hat).
      { lia. }
      { intros k b' Hk Hb'. apply (Hfits k b'); [lia | exact Hb']. }
      exists x. rewrite Hrun. repeat split; auto.
      intros i j k. rewrite Hat.
      destruct (Nat.eqb_spec k a) as [-> | Hne].
      * destruct (Nat.leb_spec (S a) a); [lia |].
        destruct (Nat.leb_spec a a); [| lia].
        destruct (Nat.ltb_spec a (a + S m)); [| lia].
        simpl. rewrite Hfile. reflexivity.
      * assert (E1 : Nat.leb (S a) k = Nat.leb a k)
          by (destruct (Nat.leb_spec (S a) k); destruct (Nat.leb_spec a k);
              auto; lia).
        assert (E2 : Nat.ltb k (S a + m) = Nat.ltb k (a + S m))
          by (f_equal; lia).
        rewrite E1, E2. reflexivity.
Qed.

(** One neighbour that does not fit makes the whole loop fail. *)
Lemma window_loop_misfit (fp : string) (lo : Z) (m : nat) :
  forall (a : nat) (x0 : array3 scalar) (w : world),
    a + m <= a3_chans x0 ->
    (exists k b,
        a <= k < a + m /\
        disk (join fp (imaging_file
                         (parse_slice_idx_to_str (lo + Z.of_nat k)))) = Some b /\
        (axis_fits (a2_rows b) (a3_rows x0)
         && axis_fits (a2_cols b) (a3_cols x0))%bool = false) ->
    for_each (load_neighbor fp)
      (map (fun k => (k, (lo + Z.of_nat k)%Z)) (seq a m)) x0 w
    = (inl (ValueError "could not broadcast input array"), w).
Proof.
  induction m as [| m IH]; intros a x0 w Hchans (k & b & Hk & Hb & Hbad).
  - lia.
  - simpl seq. simpl map. rewrite for_each_cons, load_neighbor_run.
    destruct (disk (join fp (imaging_file
                               (parse_slice_idx_to_str (lo + Z.of_nat a)))))
      as [b0 |] eqn:Hfile.
    + destruct (axis_fits (a2_rows b0) (a3_rows x0)
                && axis_fits (a2_cols b0) (a3_cols x0))%bool eqn:Hfit.
      * rewrite setitem_channel_fits by (auto; lia).
        apply IH; [simpl; lia |].
        exists k, b. simpl. repeat split; auto; try lia.
        destruct (Nat.eq_dec k a) as [-> | Hne]; [| lia].
        rewrite Hfile in Hb. injection Hb as <-. congruence.
      * rewrite setitem_channel_misfit by (auto; lia). reflexivity.
    + apply IH; [lia |].
      exists k, b. repeat split; auto; try lia.
      destruct (Nat.eq_dec k a) as [-> | Hne]; [| lia].
      congruence.
Qed.

Lemma window_half_width (n : Z) :
  (1 < n)%Z -> (0 <= 2 * ((n - 1) / 2) <= n - 1)%Z.
Proof.
  intros Hn. pose proof (Z.mul_div_le (n - 1) 2 ltac:(lia)).
  assert (0 <= (n - 1) / 2)%Z by (apply Z.div_pos; lia). lia.
Qed.

(** X8: a stored neighbour need not have the shape of the centre: one
    whose rows or columns number 1 is broadcast over the slice of the
    buffer without any error, its values repeated along that axis.  And
    whatever the neighbours are, the middle channel of the window is the
    drawn slice itself. *)
Theorem pseudo_window_broadcast (w w1 : world) (n : Z) (case_raw s : string)
    (c : Z) (cx cy : array2 scalar) :
  let fp := join (in_dir (self w)) case_raw in
  let h := ((n - 1) / 2)%Z in
  let neighbor (k : nat) :=
    disk (join fp (imaging_file
                     (parse_slice_idx_to_str (c - h + Z.of_nat k)))) in
  num_pseudo_slices (self w) = Some n ->
  (1 < n)%Z ->
  get_slice_idx_str case_raw w = (inr (s, c), w1) ->
  disk (join fp (imaging_file s)) = Some cx ->
  disk (join fp (segmentation_file s)) = Some cy ->
  (forall k b,
      (Z.of_nat k <= 2 * h)%Z -> neighbor k = Some b ->
      (axis_fits (a2_rows b) (a2_rows cx)
       && axis_fits (a2_cols b) (a2_cols cx))%bool = true) ->
  exists x,
    load_slices case_raw w = (inr (Some (x, expand_last cy)), w1) /\
    (a3_rows x, a3_cols x, a3_chans x)
    = (a2_rows cx, a2_cols cx, Z.to_nat n) /\
    (forall k i j,
        (Z.of_nat k <= 2 * h)%Z ->
        a3_at x i j k
        = match neighbor k with
          | Some b =>
              astype (a2_dtype b) Float64
                (a2_at b (axis_index (a2_rows b) (a2_rows cx) i)
                         (axis_index (a2_cols b) (a2_cols cx) j))
          | None => zero
          end) /\
    (forall i j,
        a3_at x i j (Z.to_nat h) = astype (a2_dtype cx) Float64 (a2_at cx i j)).
Proof.
  intros fp h neighbor Hn Hgt Hdraw Hx Hy Hfits.
  pose proof (window_half_width n Hgt) as Hh. fold h in Hh.
  destruct (get_slice_idx_str_parse _ _ _ _ _ Hdraw) as [Hs _].
  rewrite load_slices_dispatch, Hn, pseudo_load_slices_run, Hdraw.
  cbv zeta. fold fp. rewrite Hx, Hy.
  destruct (Z.eqb_spec n 1); [lia |].
  destruct (Z.ltb_spec 1 n); [| lia].
  rewrite enumerate_py_range. fold h.
  replace (c + h + 1 - (c - h))%Z with (2 * h + 1)%Z by lia.
  destruct (window_loop_broadcast fp (c - h) (Z.to_nat (2 * h + 1)) 0
              (np_zeros zero (a2_rows cx) (a2_cols cx) (Z.to_nat n)) w1)
    as (x & Hrun & Hd & Hr & Hc & Hch & Hat).
  { unfold np_zeros. cbn [a3_chans]. lia. }
  { intros k b Hk Hb. unfold np_zeros. cbn [a3_rows a3_cols].
    apply (Hfits k b); [lia | exact Hb]. }
  exists x. unfold bind. rewrite Hrun.
  unfold np_zeros in Hd, Hr, Hc, Hch, Hat.
  cbn [a3_dtype a3_rows a3_cols a3_chans a3_at] in Hd, Hr, Hc, Hch, Hat.
  assert (Hwin : forall k i j,
             (Z.of_nat k <= 2 * h)%Z ->
             a3_at x i j k
             = match neighbor k with
               | Some b =>
                   astype (a2_dtype b) Float64
                     (a2_at b (axis_index (a2_rows b) (a2_rows cx) i)
                        (axis_index (a2_cols b) (a2_cols cx) j))
               | None => zero
               end).
  { intros k i j Hk. rewrite Hat. subst neighbor.
    destruct (Nat.leb_spec 0 k); [| lia].
    destruct (Nat.ltb_spec k (0 + Z.to_nat (2 * h + 1))); [| lia].
    reflexivity. }
  repeat split.
  - rewrite Hr, Hc, Hch. reflexivity.
  - exact Hwin.
  - intros i j. rewrite Hwin by lia. subst neighbor. cbv beta.
    replace (c - h + Z.of_nat (Z.to_nat h))%Z with c by lia.
    rewrite <- Hs, Hx. unfold axis_index. rewrite !Nat.eqb_refl.
    reflexivity.
Qed.

(** X9: a stored neighbour whose shape cannot be broadcast to the shape
    of the centre makes the load fail with numpy's [ValueError]; no
    partial stack is returned. *)
Theorem pseudo_window_shape_mismatch (w w1 : world) (n : Z)
    (case_raw s : string) (c : Z) (cx cy : array2 scalar) :
  let fp := join (in_dir (self w)) case_raw in
  let h := ((n - 1) / 2)%Z in
  let neighbor (k : nat) :=
    disk (join fp (imaging_file
                     (parse_slice_idx_to_str (c - h + Z.of_nat k)))) in
  num_pseudo_slices (self w) = Some n ->
  (1 < n)%Z ->
  get_slice_idx_str case_raw w = (inr (s, c), w1) ->
  disk (join fp (imaging_file s)) = Some cx ->
  disk (join fp (segmentation_file s)) = Some cy ->
  (exists k b,
      (Z.of_nat k <= 2 * h)%Z /\ neighbor k = Some b /\
      (axis_fits (a2_rows b) (a2_rows cx)
       && axis_fits (a2_cols b) (a2_cols cx))%bool = false) ->
  load_slices case_raw w
  = (inl (ValueError "could not broadcast input array"), w1).
Proof.
  intros fp h neighbor Hn Hgt Hdraw Hx Hy (k & b & Hk & Hb & Hbad).
  pose proof (window_half_width n Hgt) as Hh. fold h in Hh.
  rewrite load_slices_dispatch, Hn, pseudo_load_slices_run, Hdraw.
  cbv zeta. fold fp. rewrite Hx, Hy.
  destruct (Z.eqb_spec n 1); [lia |].
  destruct (Z.ltb_spec 1 n); [| lia].
  rewrite enumerate_py_range. fold h.
  replace (c + h + 1 - (c - h))%Z with (2 * h + 1)%Z by lia.
  unfold bind.
  rewrite (window_loop_misfit fp (c - h) (Z.to_nat (2 * h + 1)) 0
             (np_zeros zero (a2_rows cx) (a2_cols cx) (Z.to_nat n)) w1).
  - reflexivity.
  - unfold np_zeros. cbn [a3_chans]. lia.
  - exists k, b. unfold np_zeros. cbn [a3_rows a3_cols].
    repeat split; auto; lia.
Qed.

(** ** Items *)

Lemma load_slices_self (case_raw : string) (w : world) :
  self (snd (load_slices case_raw w)) = self w.
Proof. apply keeps_self_load_slices. Qed.

Lemma apply_no_stage (x y : pyval scalar) (w : world) :
  transforms (self w) = None ->
  preprocessing (self w) = None ->
  apply_transforms_and_preprocessing x y w = (inr (x, y), w).
Proof.
  intros Ht Hp.
  unfold apply_transforms_and_preprocessing, bind, attr.
  rewrite Ht. cbn. rewrite Hp. reflexivity.
Qed.

(** X10: in a dataset without transform and preprocessing stages, an
    index in [-len, len) whose case loads gives exactly the loaded pair
    wrapped as tensors: the image converted to float32 and the mask to
    int64, with the world the loader left. *)
Theorem getitem_without_stages (idx : Z) (w w1 : world) (case_id : string)
    (x y : array3 scalar) :
  let n := Z.of_nat (length (im_ids (self w))) in
  transforms (self w) = None ->
  preprocessing (self w) = None ->
  (- n <= idx < n)%Z ->
  nth_error (im_ids (self w)) (Z.to_nat (idx mod n)) = Some case_id ->
  load_slices case_id w = (inr (Some (x, y)), w1) ->
  __getitem__ idx w
  = (inr (Tensor (tensor_to Float32 x), Tensor (tensor_to Int64 y)), w1).
Proof.
  intros n Ht Hp Hr Hnth Hload.
  destruct (seq_getitem_in_range _ (im_ids (self w)) idx Hr)
    as (c & Hget & Hnth').
  fold n in Hnth'. assert (c = case_id) by congruence. subst c.
  assert (Hself : self w1 = self w).
  { pose proof (load_slices_self case_id w) as H.
    rewrite Hload in H. exact H. }
  unfold __getitem__, bind at 1, attr at 1.
  unfold bind at 1, lift. rewrite Hget.
  unfold bind at 1. rewrite Hload.
  unfold bind at 1, unpack, ret at 1.
  unfold bind at 1.
  rewrite apply_no_stage by (rewrite Hself; assumption).
  reflexivity.
Qed.

(** X11: a dataset whose [num_pseudo_slices] is below 1 (the constructor
    lets the negative odd ones through) never returns an item: every call
    of [__getitem__] raises. *)
Theorem getitem_nonpositive_window_raises (idx : Z) (w : world) (n : Z) :
  num_pseudo_slices (self w) = Some n ->
  (n < 1)%Z ->
  exists e w', __getitem__ idx w = (inl e, w').
Proof.
  intros Hn Hlt.
  unfold __getitem__, bind at 1, attr at 1. unfold bind at 1, lift.
  destruct (seq_getitem (im_ids (self w)) idx) as [e | case_id]; [eauto |].
  unfold bind at 1.
  rewrite load_slices_dispatch, Hn, pseudo_load_slices_run.
  destruct (get_slice_idx_str case_id w) as [[e | [s c]] w1]; [eauto |].
  cbv zeta.
  destruct (disk _) as [cx |]; [| eauto].
  destruct (disk _) as [cy |]; [| eauto].
  destruct (Z.eqb_spec n 1); [lia |].
  destruct (Z.ltb_spec 1 n); [lia |].
  unfold ret at 1. unfold bind at 1, unpack, raise. eauto.
Qed.

(** X12: the stages run in the order transforms, preprocessing, the
    second on the image and mask the first returned (other keys of the
    returned dicts are ignored); and when the transform stage raises, the
    pipeline stops there whatever the preprocessing stage is. *)
Theorem pipeline_order (x y : pyval scalar) (w : world) (f : callable scalar) :
  transforms (self w) = Some f ->
  (forall (g : callable scalar) d1 x1 y1 d2 x2 y2,
      preprocessing (self w) = Some g ->
      f x y = inr d1 ->
      dict_get d1 "image" = Some x1 -> dict_get d1 "mask" = Some y1 ->
      g x1 y1 = inr d2 ->
      dict_get d2 "image" = Some x2 -> dict_get d2 "mask" = Some y2 ->
      apply_transforms_and_preprocessing x y w = (inr (x2, y2), w)) /\
  (forall e,
      f x y = inl e ->
      apply_transforms_and_preprocessing x y w = (inl (Raised e), w)) /\
  (forall d1,
      f x y = inr d1 -> dict_get d1 "image" = None ->
      apply_transforms_and_preprocessing x y w = (inl (KeyError "image"), w)).
Proof.
  intros Ht. repeat split.
  - intros g d1 x1 y1 d2 x2 y2 Hp Hf Hx1 Hy1 Hg Hx2 Hy2.
    unfold apply_transforms_and_preprocessing, bind, attr, apply_stage,
      dict_getitem.
    rewrite Ht, Hf, Hx1. cbn. rewrite Hy1. cbn.
    rewrite Hp, Hg, Hx2. cbn. rewrite Hy2. reflexivity.
  - intros e Hf.
    unfold apply_transforms_and_preprocessing, bind, attr, apply_stage.
    rewrite Ht, Hf. reflexivity.
  - intros d1 Hf Hx1.
    unfold apply_transforms_and_preprocessing, bind, attr, apply_stage,
      dict_getitem.
    rewrite Ht, Hf, Hx1. reflexivity.
Qed.

(** ** Construction and the class labels *)

(** X13: with a distribution that sums to 1, the constructor raises
    [IndexError] on an empty catalog, and on any other takes the class
    labels from the first entry alone, in its order: the labels of the
    other cases are not looked at. *)
Theorem init_classes_from_first_entry (ids : list string) (dir : string)
    (tr pre : option (callable scalar)) (p : list float) :
  (np_sum p =? 1)%float = true ->
  slice_init ids dir [] tr pre p = inl (IndexError 0 0) /\
  forall k v rest,
  exists d,
    slice_init ids dir ((k, v) :: rest) tr pre p = inr d /\
    classes d = keys v /\
    pos_slice_dict d = (k, v) :: rest /\
    sampling_distribution d = p /\
    im_ids d = ids.
Proof.
  intros Hsum. unfold slice_init. rewrite Hsum. simpl negb. cbv iota.
  split; [reflexivity |].
  intros k v rest. unfold first_entry_classes. simpl.
  rewrite String.eqb_refl. eexists. split; [reflexivity |].
  repeat split.
Qed.

(** X14: the class labels are those of the first case only, and nothing
    checks that another case has them: when a case lacks every label of
    positive probability, each draw for it raises [KeyError] with one of
    the labels of [self.classes]. *)
Theorem draw_missing_class (w : world) (case_raw : string)
    (by_class : dict (list Z)) :
  choice_p_check (length (classes (self w)))
    (sampling_distribution (self w)) = None ->
  dict_get (pos_slice_dict (self w)) case_raw = Some by_class ->
  (forall k c x,
      nth_error (classes (self w)) k = Some c ->
      nth_error (sampling_distribution (self w)) k = Some x ->
      (0 <? x)%float = true ->
      dict_get by_class c = None) ->
  exists c g,
    In c (classes (self w)) /\
    get_slice_idx case_raw w
    = (inl (KeyError c), {| self := self w; random_state := g |}).
Proof.
  intros Hacc Hcase Hmissing.
  destruct (weighted_draw_positive _ _ (random_state w) Hacc)
    as (x & Hc & Hx & Hpos).
  rewrite get_slice_idx_run, Hacc. cbv zeta. rewrite Hcase.
  rewrite (Hmissing _ _ _ Hc Hx Hpos).
  eexists _, _. split; [| reflexivity].
  eapply nth_error_In. exact Hc.
Qed.

(** X15: on a dataset as either constructor returns it,
    [log_class_indices] is idempotent: calling it again leaves the object
    and the random state as they are. *)
Theorem log_class_indices_after_init (ids : list string) (dir : string)
    (cat : catalog) (tr pre : option (callable scalar)) (p : list float)
    (n : Z) (d : dataset scalar) (g : G) :
  slice_init ids dir cat tr pre p = inr d \/
  pseudo_init ids dir cat tr pre p n = inr d ->
  log_class_indices {| self := d; random_state := g |}
  = (inr tt, {| self := d; random_state := g |}).
Proof.
  intros Hinit.
  assert (Hfields : pos_slice_dict d = cat /\
                    first_entry_classes cat = inr (classes d)).
  { destruct Hinit as [Hinit | Hinit];
      [apply slice_init_fields in Hinit | apply pseudo_init_fields in Hinit];
      destruct Hinit as (_ & _ & Hcat & _ & Hc & _); auto. }
  destruct Hfields as [Hcat Hc].
  unfold log_class_indices, bind, attr, lift, assign. cbn [self random_state].
  rewrite Hcat, Hc. destruct d. reflexivity.
Qed.

(** X16: the length of a constructed dataset is the number of case
    identifiers it was given, and it is still so after any call of
    [__getitem__], whether the call returned or raised. *)
Theorem len_is_stable (ids : list string) (dir : string) (cat : catalog)
    (tr pre : option (callable scalar)) (p : list float) (n : Z)
    (d : dataset scalar) (g : G) (idx : Z) :
  slice_init ids dir cat tr pre p = inr d \/
  pseudo_init ids dir cat tr pre p n = inr d ->
  let w := {| self := d; random_state := g |} in
  fst (__len__ w) = inr (length ids) /\
  fst (__len__ (snd (__getitem__ idx w))) = inr (length ids).
Proof.
  intros Hinit w.
  assert (Hids : im_ids d = ids).
  { destruct Hinit as [Hinit | Hinit];
      [apply slice_init_fields in Hinit | apply pseudo_init_fields in Hinit];
      destruct Hinit as (Hids & _); exact Hids. }
  unfold __len__, bind, attr, ret. cbn [fst].
  rewrite (keeps_self_getitem idx w). subst w. cbn [self].
  rewrite Hids. split; reflexivity.
Qed.

End Properties.

(** * The properties on the example directory *)

(** The sequential sum accepts the default distribution and the golden
    one, and rejects sums of 0.9 and 1.1; the comparison is exact, so the
    rounding of 0.7 + 0.2 + 0.1 is rejected as well. *)
Example default_distribution_sums_to_one :
  (seq_sum default_sampling_distribution =? 1)%float = true /\
  (seq_sum golden_distribution =? 1)%float = true /\
  (seq_sum [0.5; 0.4] =? 1)%float = false /\
  (seq_sum [0.5; 0.6] =? 1)%float = false /\
  (seq_sum [0.7; 0.2; 0.1] =? 1)%float = false.
Proof. vm_compute. auto. Qed.

Example golden_dataset_built :
  slice_init seq_sum ["case01"%string] "/data" golden_catalog None None
    golden_distribution
  = inr (ex_dataset golden_distribution None).
Proof. vm_compute. reflexivity. Qed.

(** The window sizes 2, 4 and 6 are refused and 1, 3, 5 and 7 accepted. *)
Example window_sizes :
  forallb
    (fun n =>
       match pseudo_init (scalar := Z) seq_sum ["case01"%string] "/data"
               golden_catalog None None golden_distribution n with
       | inl (AssertionError msg) => String.eqb msg odd_message
       | _ => false
       end) [2; 4; 6]%Z = true /\
  forallb
    (fun n =>
       match pseudo_init (scalar := Z) seq_sum ["case01"%string] "/data"
               golden_catalog None None golden_distribution n with
       | inr d =>
           match num_pseudo_slices d with
           | Some m => Z.eqb m n
           | None => false
           end
       | inl _ => false
       end) [1; 3; 5; 7]%Z = true.
Proof. vm_compute. auto. Qed.

(** With a window of one slice the loaded image is the centre slice with
    one channel, as for the single-slice dataset. *)
Example window_one_on_disk :
  exists x y w',
    load_slices 0%Z keep three_digits ex_disk "case01"
      (ex_world golden_distribution (Some 1%Z) 42)
    = (inr (Some (x, y)), w') /\
    (a3_rows x, a3_cols x, a3_chans x) = (2, 3, 1) /\
    a3_dtype x = Int16 /\
    a3_at x 1 2 0 = 713%Z /\
    (a3_rows y, a3_cols y, a3_chans y) = (2, 3, 1).
Proof.
  eexists _, _, _. split; [vm_compute; reflexivity |].
  vm_compute. auto.
Qed.

(** Window 1 and the single-slice dataset on the example directory: both
    return slice 7 of the image and of the mask as stored, and what the
    window of 1 returns is the pair of the files of the slice drawn. *)
Lemma window_one_is_single_slice_witness :
  let wp := ex_world golden_distribution (Some 1%Z) 42 in
  let ws := ex_world golden_distribution None 42 in
  fst (load_slices 0%Z keep three_digits ex_disk "case01" wp)
  = fst (load_slices 0%Z keep three_digits ex_disk "case01" ws) /\
  (exists x y,
      load_slices 0%Z keep three_digits ex_disk "case01" wp
      = (inr (Some (x, y)),
         snd (get_slice_idx_str three_digits "case01" wp)) /\
      fst (load_slices 0%Z keep three_digits ex_disk "case01" ws)
      = inr (Some (x, y)) /\
      (a3_rows x, a3_cols x, a3_chans x) = (2, 3, 1) /\
      a3_dtype x = Int16 /\
      a3_at x 1 2 0 = 713%Z /\
      (a3_rows y, a3_cols y, a3_chans y) = (2, 3, 1) /\
      a3_dtype y = UInt8 /\
      a3_at y 1 1 0 = 2%Z) /\
  (exists s c cx cy,
      fst (get_slice_idx_str three_digits "case01" wp) = inr (s, c) /\
      s = three_digits c /\
      ex_disk (join (join "/data" "case01") (imaging_file s)) = Some cx /\
      ex_disk (join (join "/data" "case01") (segmentation_file s)) = Some cy).
Proof.
  intros wp ws.
  pose proof (window_one_is_single_slice Z 0%Z keep three_digits ex_disk N
                (ex_dataset golden_distribution None) 42%N "case01") as H.
  cbv zeta in H.
  destruct H as (Hsame & _ & Hload & Hconv).
  split; [exact Hsame |].
  assert (Hdraw : get_slice_idx_str three_digits "case01" wp
                  = (inr ("007"%string, 7%Z),
                     snd (get_slice_idx_str three_digits "case01" wp)))
    by (vm_compute; reflexivity).
  split.
  - destruct (Hload "007"%string 7%Z _ (ex_image 7) ex_mask Hdraw
                eq_refl eq_refl)
      as (x & y & Hp & Hs & Hxs & Hxd & Hxat & Hys & Hyd & Hyat).
    exists x, y.
    split; [exact Hp |].
    split; [exact Hs |].
    split; [exact Hxs |].
    split; [exact Hxd |].
    split; [rewrite (Hxat 1 2); reflexivity |].
    split; [exact Hys |].
    split; [exact Hyd |].
    rewrite (Hyat 1 1); reflexivity.
  - destruct (Hconv (Some (expand_last (ex_image 7), expand_last ex_mask))
                eq_refl)
      as (s & c & cx & cy & _ & _ & Hg & Hs & Hx & Hy & _).
    exists s, c, cx, cy. auto.
Defined.



Lemma pseudo_init_checks_odd_witness :
  pseudo_init (scalar := Z) seq_sum ["case01"%string] "/data" golden_catalog
    None None golden_distribution 4
  = inl (AssertionError odd_message) /\
  pseudo_init seq_sum ["case01"%string] "/data" golden_catalog None None
    golden_distribution 5
  = inr (ex_dataset golden_distribution (Some 5%Z)).
Proof.
  split.
  - apply (pseudo_init_checks_odd Z seq_sum ["case01"%string] "/data"
             golden_catalog None None golden_distribution 4
             (ex_dataset golden_distribution None));
      [vm_compute; reflexivity | reflexivity].
  - apply (pseudo_init_checks_odd Z seq_sum ["case01"%string] "/data"
             golden_catalog None None golden_distribution 5
             (ex_dataset golden_distribution None));
      [vm_compute; reflexivity | reflexivity].
Defined.

Lemma golden_draw_witness :
  exists g1 g2,
    sample_class (ex_world golden_distribution (Some 5%Z) 42)
    = (inr "tumor"%string,
       {| self := ex_dataset golden_distribution (Some 5%Z);
          random_state := g1 |}) /\
    get_slice_idx "case01" (ex_world golden_distribution (Some 5%Z) 42)
    = (inr 7%Z,
       {| self := ex_dataset golden_distribution (Some 5%Z);
          random_state := g2 |}).
Proof.
  apply (golden_draw Z seq_sum N ["case01"%string] "/data" None None 5
           (ex_dataset golden_distribution (Some 5%Z))
           (ex_world golden_distribution (Some 5%Z) 42)).
  - right. vm_compute. reflexivity.
  - reflexivity.
Defined.

Lemma get_slice_idx_in_catalog_witness :
  exists c l idx w',
    get_slice_idx "case01" (ex_world default_sampling_distribution None 42)
    = (inr idx, w') /\
    In c ["bg"; "kidney"; "tumor"]%string /\
    dict_get [ ("bg"%string, [0; 1; 2]%Z);
               ("kidney"%string, [5; 6]%Z);
               ("tumor"%string, [7]%Z) ] c = Some l /\
    In idx l.
Proof.
  apply (get_slice_idx_in_catalog Z N
           (ex_world default_sampling_distribution None 42) "case01").
  - vm_compute. reflexivity.
  - reflexivity.
  - intros k c x Hc _ _.
    destruct k as [| [| [| k]]]; simpl in Hc;
      try (destruct k; discriminate);
      injection Hc as <-; eexists; (split; [reflexivity | discriminate]).
Defined.

(** C3 as stated fails.  The mask of slice 7 stored as a 7 x 9 array is
    returned with shape (7, 9, 1) beside an image stack of shape
    (2, 3, 5); and a stored neighbour of another shape than the centre
    (slice 6 as a 3 x 3 array) does not become a channel: the load raises
    [ValueError]. *)
Lemma pseudo_window_mask_shape_counterexample :
  let w := ex_world golden_distribution (Some 5%Z) 42 in
  (exists x y w',
      load_slices 0%Z keep three_digits ex_disk_big_mask "case01" w
      = (inr (Some (x, y)), w') /\
      (a3_rows x, a3_cols x, a3_chans x) = (2, 3, 5) /\
      (a3_rows y, a3_cols y, a3_chans y) = (7, 9, 1)) /\
  fst (load_slices 0%Z keep three_digits ex_disk_square "case01" w)
  = inl (ValueError "could not broadcast input array").
Proof.
  intros w. split.
  - eexists _, _, _. split; [vm_compute; reflexivity |].
    vm_compute. auto.
  - vm_compute. reflexivity.
Qed.

(** The window of five slices around slice 7 at the end of the volume:
    slices 5, 6 and 7 fill the first three channels, the missing slices 8
    and 9 leave the last two at zero; the mask is the stored one. *)
Lemma pseudo_window_load_witness :
  let w := ex_world golden_distribution (Some 5%Z) 42 in
  let w1 := snd (get_slice_idx_str three_digits "case01" w) in
  exists x y,
    load_slices 0%Z keep three_digits ex_disk "case01" w
    = (inr (Some (x, y)), w1) /\
    (a3_rows x, a3_cols x, a3_chans x) = (2, 3, 5) /\
    a3_dtype x = Float64 /\
    a3_at x 1 2 0 = 513%Z /\
    a3_at x 1 2 1 = 613%Z /\
    a3_at x 1 2 2 = 713%Z /\
    a3_at x 1 2 3 = 0%Z /\
    a3_at x 1 2 4 = 0%Z /\
    (a3_rows y, a3_cols y, a3_chans y) = (2, 3, 1) /\
    a3_dtype y = UInt8 /\
    a3_at y 1 1 0 = 2%Z /\
    a3_at y 1 2 0 = 0%Z.
Proof.
  intros w w1.
  pose proof (pseudo_window_load Z 0%Z keep three_digits ex_disk N w w1 5
                "case01" "007" 7 (ex_image 7) ex_mask) as H.
  cbv zeta in H.
  assert (Hdraw : get_slice_idx_str three_digits "case01" w
                  = (inr ("007"%string, 7%Z), w1))
    by (vm_compute; reflexivity).
  assert (Hnb : forall (k : nat) (b : array2 Z),
             (Z.of_nat k <= 2 * ((5 - 1) / 2))%Z ->
             ex_disk
               (join (join (in_dir (self w)) "case01")
                  (imaging_file (three_digits (7 - (5 - 1) / 2 + Z.of_nat k))))
             = Some b ->
             a2_rows b = a2_rows (ex_image 7) /\
             a2_cols b = a2_cols (ex_image 7)).
  { intros k b Hk Hb.
    change (2 * ((5 - 1) / 2))%Z with 4%Z in Hk.
    destruct k as [| [| [| [| [| k]]]]]; try lia;
      vm_compute in Hb; try discriminate;
      injection Hb as <-; split; reflexivity. }
  destruct (H eq_refl eq_refl Hdraw eq_refl eq_refl Hnb)
    as (x & y & Hrun & Hshape & Hd & Hat & Hys & Hyd & Hyat).
  exists x, y.
  assert (Hi : 1 < a2_rows (ex_image 7)) by (simpl; lia).
  assert (Hj : 2 < a2_cols (ex_image 7)) by (simpl; lia).
  split; [exact Hrun |].
  split; [exact Hshape |].
  split; [exact Hd |].
  split; [rewrite (Hat 0 1 2) by (auto; vm_compute; discriminate);
          vm_compute; reflexivity |].
  split; [rewrite (Hat 1 1 2) by (auto; vm_compute; discriminate);
          vm_compute; reflexivity |].
  split; [rewrite (Hat 2 1 2) by (auto; vm_compute; discriminate);
          vm_compute; reflexivity |].
  split; [rewrite (Hat 3 1 2) by (auto; vm_compute; discriminate);
          vm_compute; reflexivity |].
  split; [rewrite (Hat 4 1 2) by (auto; vm_compute; discriminate);
          vm_compute; reflexivity |].
  split; [exact Hys |].
  split; [exact Hyd |].
  split; [rewrite (Hyat 1 1); reflexivity | rewrite (Hyat 1 2); reflexivity].
Defined.


(** A window of -3 slices is accepted by the constructor, and loading
    from the dataset yields [None]. *)
Lemma negative_odd_window_loads_none_witness :
  let w := ex_world golden_distribution (Some (- 3)%Z) 42 in
  pseudo_init (scalar := Z) seq_sum ["case01"%string] "/data" golden_catalog
    None None golden_distribution (- 3)
  = inr (ex_dataset golden_distribution (Some (- 3)%Z)) /\
  load_slices 0%Z keep three_digits ex_disk "case01" w
  = (inr None, snd (get_slice_idx_str three_digits "case01" w)).
Proof.
  intros w.
  destruct (negative_odd_window_loads_none Z 0%Z keep seq_sum three_digits
              ex_disk N ["case01"%string] "/data" golden_catalog None None
              golden_distribution (- 3)
              (ex_dataset golden_distribution None))
    as [Hinit Hload].
  - reflexivity.
  - reflexivity.
  - vm_compute. reflexivity.
  - split; [exact Hinit |].
    apply (Hload "case01"%string w _ "007"%string 7%Z (ex_image 7) ex_mask).
    + reflexivity.
    + vm_compute. reflexivity.
    + reflexivity.
    + reflexivity.
Defined.

(** * The further properties on the example directory *)

Lemma draw_rejects_wrong_length_witness :
  let w := ex_world [0.5; 0.5]%float None 42 in
  slice_init seq_sum ["case01"%string] "/data" golden_catalog None None
    [0.5; 0.5]%float
  = inr (self w) /\
  get_slice_idx "case01" w
  = (inl (ValueError "'a' and 'p' must have same size"), w) /\
  get_slice_idx_str three_digits "case01" w
  = (inl (ValueError "'a' and 'p' must have same size"), w).
Proof.
  intros w. split; [vm_compute; reflexivity |].
  apply (draw_rejects_wrong_length Z three_digits N w "case01").
  - discriminate.
  - simpl. lia.
Defined.

Lemma draw_missing_case_witness :
  get_slice_idx "case99" (ex_world golden_distribution None 42)
  = (inl (KeyError "case99"),
     {| self := ex_dataset golden_distribution None;
        random_state :=
          snd (weighted_index golden_distribution 42%N) |}).
Proof.
  apply (draw_missing_case Z N (ex_world golden_distribution None 42)
           "case99").
  - vm_compute. reflexivity.
  - reflexivity.
Defined.

Lemma draw_empty_lists_witness :
  exists g,
    get_slice_idx "case01"
      {| self := ex_dataset_of ["case01"%string] "/data" sparse_catalog
                   None None [0.5; 0; 0.5]%float None;
         random_state := 42%N |}
    = (inl (ValueError "'a' cannot be empty unless no samples are taken"),
       {| self := ex_dataset_of ["case01"%string] "/data" sparse_catalog
                    None None [0.5; 0; 0.5]%float None;
          random_state := g |}).
Proof.
  apply (draw_empty_lists Z N
           {| self := ex_dataset_of ["case01"%string] "/data" sparse_catalog
                        None None [0.5; 0; 0.5]%float None;
              random_state := 42%N |} "case01"
           [ ("bg"%string, []); ("kidney"%string, [5; 6]%Z);
             ("tumor"%string, []) ]).
  - vm_compute. reflexivity.
  - reflexivity.
  - intros k c x Hc Hx Hpos.
    destruct k as [| [| [| k]]]; simpl in Hc, Hx;
      try (destruct k; discriminate).
    + injection Hc as <-. reflexivity.
    + injection Hx as <-. vm_compute in Hpos. discriminate.
    + injection Hc as <-. reflexivity.
Defined.

Lemma draw_result_provenance_witness :
  exists idx w' k c x by_class l,
    get_slice_idx "case01" (ex_world default_sampling_distribution None 42)
    = (inr idx, w') /\
    nth_error ["bg"; "kidney"; "tumor"]%string k = Some c /\
    nth_error default_sampling_distribution k = Some x /\
    (0 <? x)%float = true /\
    dict_get golden_catalog "case01" = Some by_class /\
    dict_get by_class c = Some l /\
    In idx l.
Proof.
  destruct (get_slice_idx "case01"
              (ex_world default_sampling_distribution None 42))
    as [[e | idx] w'] eqn:E.
  - vm_compute in E. discriminate.
  - destruct (draw_result_provenance Z N
                (ex_world default_sampling_distribution None 42) w' "case01"
                idx E)
      as (k & c & x & by_class & l & Hc & Hx & Hpos & Hcat & Hl & Hin & _).
    exists idx, w', k, c, x, by_class, l. repeat split; assumption.
Defined.

Lemma draw_depends_on_sampling_attributes_witness :
  let d := ex_dataset golden_distribution None in
  let d' := ex_dataset_of ["case02"%string; "case01"%string] "/mnt/slices"
              golden_catalog (Some ex_transform) (Some ex_preprocess)
              golden_distribution (Some 7%Z) in
  fst (get_slice_idx_str three_digits "case01"
         {| self := d; random_state := 42%N |})
  = fst (get_slice_idx_str three_digits "case01"
           {| self := d'; random_state := 42%N |}) /\
  random_state
    (snd (get_slice_idx_str three_digits "case01"
            {| self := d; random_state := 42%N |}))
  = random_state
      (snd (get_slice_idx_str three_digits "case01"
              {| self := d'; random_state := 42%N |})).
Proof.
  intros d d'.
  apply (draw_depends_on_sampling_attributes Z three_digits N d d' 42%N
           "case01"); reflexivity.
Defined.

Lemma load_slices_missing_file_witness :
  fst (load_slices 0%Z keep three_digits ex_disk "case01"
         (ex_world [1; 0; 0]%float None 42))
  = inl (FileNotFoundError "/data/case01/imaging_000.npy") /\
  fst (load_slices 0%Z keep three_digits ex_disk "case01"
         (ex_world [0; 1; 0]%float (Some 5%Z) 42))
  = inl (FileNotFoundError "/data/case01/segmentation_006.npy").
Proof.
  split.
  - pose proof (load_slices_missing_file Z 0%Z keep three_digits ex_disk N
                  (ex_world [1; 0; 0]%float None 42)
                  (snd (get_slice_idx_str three_digits "case01"
                          (ex_world [1; 0; 0]%float None 42)))
                  "case01" "000" 0) as H.
    cbv zeta in H.
    destruct H as [H _]; [vm_compute; reflexivity |].
    rewrite H by reflexivity. reflexivity.
  - pose proof (load_slices_missing_file Z 0%Z keep three_digits ex_disk N
                  (ex_world [0; 1; 0]%float (Some 5%Z) 42)
                  (snd (get_slice_idx_str three_digits "case01"
                          (ex_world [0; 1; 0]%float (Some 5%Z) 42)))
                  "case01" "006" 6) as H.
    cbv zeta in H.
    destruct H as [_ H]; [vm_compute; reflexivity |].
    rewrite (H (ex_image 6)) by reflexivity. reflexivity.
Defined.

Lemma slice_load_slices_returns_files_witness :
  let w := ex_world golden_distribution None 42 in
  exists x3 y3,
    load_slices 0%Z keep three_digits ex_disk "case01" w
    = (inr (Some (x3, y3)), snd (get_slice_idx_str three_digits "case01" w)) /\
    (a3_rows x3, a3_cols x3, a3_chans x3) = (2, 3, 1) /\
    a3_dtype x3 = Int16 /\
    a3_dtype y3 = UInt8 /\
    a3_at x3 1 2 0 = 713%Z /\
    a3_at y3 1 1 0 = 2%Z.
Proof.
  intros w.
  destruct (slice_load_slices_returns_files Z 0%Z keep three_digits ex_disk N
              w (snd (get_slice_idx_str three_digits "case01" w))
              "case01" "007" 7 (ex_image 7) ex_mask)
    as (x3 & y3 & Hrun & Hsx & _ & Hdx & Hdy & Hat).
  - reflexivity.
  - vm_compute. reflexivity.
  - reflexivity.
  - reflexivity.
  - exists x3, y3. repeat split; try assumption.
    + rewrite (proj1 (Hat 1 2)). reflexivity.
    + rewrite (proj2 (Hat 1 1)). reflexivity.
Defined.

(** Slice 6 stored as one row: the row fills both rows of its channel. *)
Lemma pseudo_window_broadcast_witness :
  let w := ex_world golden_distribution (Some 5%Z) 42 in
  exists x,
    fst (load_slices 0%Z keep three_digits ex_disk_row "case01" w)
    = inr (Some (x, expand_last ex_mask)) /\
    (a3_rows x, a3_cols x, a3_chans x) = (2, 3, 5) /\
    a3_at x 0 2 1 = 63%Z /\
    a3_at x 1 2 1 = 63%Z /\
    a3_at x 1 2 2 = 713%Z.
Proof.
  intros w.
  pose proof (pseudo_window_broadcast Z 0%Z keep three_digits ex_disk_row N
                w (snd (get_slice_idx_str three_digits "case01" w)) 5
                "case01" "007" 7 (ex_image 7) ex_mask) as H.
  cbv zeta in H.
  destruct H as (x & Hrun & Hshape & Hat & Hcentre).
  - reflexivity.
  - reflexivity.
  - vm_compute. reflexivity.
  - reflexivity.
  - reflexivity.
  - intros k b Hk Hb.
    change (2 * ((5 - 1) / 2))%Z with 4%Z in Hk.
    destruct k as [| [| [| [| [| k]]]]]; try lia;
      vm_compute in Hb; try discriminate;
      injection Hb as <-; reflexivity.
  - exists x. rewrite Hrun. repeat split; try assumption.
    + rewrite (Hat 1 0 2) by (vm_compute; discriminate).
      vm_compute. reflexivity.
    + rewrite (Hat 1 1 2) by (vm_compute; discriminate).
      vm_compute. reflexivity.
    + apply (Hcentre 1 2).
Defined.

(** Slice 6 stored as a 3 x 3 array: the load of the window fails. *)
Lemma pseudo_window_shape_mismatch_witness :
  fst (load_slices 0%Z keep three_digits ex_disk_square "case01"
         (ex_world golden_distribution (Some 5%Z) 42))
  = inl (ValueError "could not broadcast input array").
Proof.
  pose proof (pseudo_window_shape_mismatch Z 0%Z keep three_digits
                ex_disk_square N
                (ex_world golden_distribution (Some 5%Z) 42)
                (snd (get_slice_idx_str three_digits "case01"
                        (ex_world golden_distribution (Some 5%Z) 42))) 5
                "case01" "007" 7 (ex_image 7) ex_mask) as H.
  cbv zeta in H.
  assert (Hdraw : get_slice_idx_str three_digits "case01"
                    (ex_world golden_distribution (Some 5%Z) 42)
                  = (inr ("007"%string, 7%Z),
                     snd (get_slice_idx_str three_digits "case01"
                            (ex_world golden_distribution (Some 5%Z) 42))))
    by (vm_compute; reflexivity).
  rewrite (H eq_refl eq_refl Hdraw eq_refl eq_refl); [reflexivity |].
  exists 1, ex_square_image. repeat split. vm_compute. discriminate.
Defined.

Lemma getitem_without_stages_witness :
  let w := ex_world golden_distribution None 42 in
  __getitem__ 0%Z keep three_digits ex_disk (- 1) w
  = (inr (Tensor (tensor_to keep Float32 (expand_last (ex_image 7))),
          Tensor (tensor_to keep Int64 (expand_last ex_mask))),
     snd (load_slices 0%Z keep three_digits ex_disk "case01" w)).
Proof.
  intros w.
  apply (getitem_without_stages Z 0%Z keep three_digits ex_disk N (- 1) w
           (snd (load_slices 0%Z keep three_digits ex_disk "case01" w))
           "case01" (expand_last (ex_image 7)) (expand_last ex_mask)).
  - reflexivity.
  - reflexivity.
  - simpl. lia.
  - reflexivity.
  - vm_compute. reflexivity.
Defined.

Lemma getitem_nonpositive_window_raises_witness :
  exists e w',
    __getitem__ 0%Z keep three_digits ex_disk 0
      (ex_world golden_distribution (Some (- 3)%Z) 42)
    = (inl e, w').
Proof.
  apply (getitem_nonpositive_window_raises Z 0%Z keep three_digits ex_disk N 0
           (ex_world golden_distribution (Some (- 3)%Z) 42) (- 3)).
  - reflexivity.
  - lia.
Defined.

Lemma pipeline_order_witness :
  let x := NdArray (expand_last (ex_image 7)) in
  let y := NdArray (expand_last ex_mask) in
  let staged (tr : callable Z) : world Z N :=
    {| self := ex_dataset_of ["case01"%string] "/data" golden_catalog
                 (Some tr) (Some ex_preprocess) golden_distribution None;
       random_state := 42%N |} in
  apply_transforms_and_preprocessing x y (staged ex_transform)
  = (inr (Tensor (expand_last (ex_image 7)), y), staged ex_transform) /\
  apply_transforms_and_preprocessing x y (staged ex_failing_transform)
  = (inl (Raised "RuntimeError"), staged ex_failing_transform).
Proof.
  intros x y staged. split.
  - destruct (pipeline_order Z N x y (staged ex_transform) ex_transform
                eq_refl) as (Hok & _ & _).
    apply (Hok ex_preprocess
             [ ("image"%string, x); ("mask"%string, y);
               ("bboxes"%string, PyObject Z "list") ] x y
             [ ("mask"%string, y); ("image"%string, to_tensor x) ]);
      reflexivity.
  - destruct (pipeline_order Z N x y (staged ex_failing_transform)
                ex_failing_transform eq_refl) as (_ & Hfail & _).
    apply Hfail. reflexivity.
Defined.

Lemma init_classes_from_first_entry_witness :
  slice_init (scalar := Z) seq_sum ["case01"%string] "/data" [] None None
    golden_distribution
  = inl (IndexError 0 0) /\
  exists d,
    slice_init (scalar := Z) seq_sum ["case02"%string] "/data"
      (("case02"%string, [ ("bg"%string, [0]%Z); ("kidney"%string, [3]%Z) ])
       :: golden_catalog) None None golden_distribution
    = inr d /\
    classes d = ["bg"; "kidney"]%string.
Proof.
  destruct (init_classes_from_first_entry Z seq_sum ["case01"%string] "/data"
              None None golden_distribution) as [Hempty _];
    [vm_compute; reflexivity |].
  split; [exact Hempty |].
  destruct (init_classes_from_first_entry Z seq_sum ["case02"%string] "/data"
              None None golden_distribution) as [_ Hfirst];
    [vm_compute; reflexivity |].
  destruct (Hfirst "case02"%string
              [ ("bg"%string, [0]%Z); ("kidney"%string, [3]%Z) ]
              golden_catalog)
    as (d & Hinit & Hclasses & _).
  exists d. split; [exact Hinit | exact Hclasses].
Defined.

(** The second case has no ["tumor"] label: with all the probability on
    it, every draw for that case raises [KeyError]. *)
Lemma draw_missing_class_witness :
  let w := {| self := ex_dataset_of ["case01"%string; "case02"%string]
                        "/data" two_case_catalog None None
                        golden_distribution None;
              random_state := 42%N |} in
  slice_init seq_sum ["case01"%string; "case02"%string] "/data"
    two_case_catalog None None golden_distribution
  = inr (self w) /\
  exists c g,
    In c ["bg"; "kidney"; "tumor"]%string /\
    get_slice_idx "case02" w
    = (inl (KeyError c), {| self := self w; random_state := g |}).
Proof.
  intros w. split; [vm_compute; reflexivity |].
  apply (draw_missing_class Z N w "case02"
           [ ("bg"%string, [0]%Z); ("kidney"%string, [3]%Z) ]).
  - vm_compute. reflexivity.
  - reflexivity.
  - intros k c x Hc Hx Hpos.
    destruct k as [| [| [| k]]]; simpl in Hc, Hx;
      try (destruct k; discriminate).
    + injection Hx as <-. vm_compute in Hpos. discriminate.
    + injection Hx as <-. vm_compute in Hpos. discriminate.
    + injection Hc as <-. reflexivity.
Defined.

Lemma log_class_indices_after_init_witness :
  log_class_indices (ex_world golden_distribution (Some 5%Z) 42)
  = (inr tt, ex_world golden_distribution (Some 5%Z) 42).
Proof.
  apply (log_class_indices_after_init Z seq_sum N ["case01"%string] "/data"
           golden_catalog None None golden_distribution 5
           (ex_dataset golden_distribution (Some 5%Z)) 42%N).
  right. vm_compute. reflexivity.
Defined.

Lemma len_is_stable_witness :
  let w := ex_world golden_distribution None 42 in
  fst (__len__ w) = inr 1 /\
  fst (__len__ (snd (__getitem__ 0%Z keep three_digits ex_disk 0 w))) = inr 1 /\
  fst (__len__ (snd (__getitem__ 0%Z keep three_digits ex_disk 5 w))) = inr 1.
Proof.
  intros w.
  pose proof (len_is_stable Z 0%Z keep seq_sum three_digits ex_disk N
                ["case01"%string] "/data" golden_catalog None None
                golden_distribution 0 (ex_dataset golden_distribution None)
                42%N) as H.
  assert (Hinit : slice_init seq_sum ["case01"%string] "/data" golden_catalog
                    None None golden_distribution
                  = inr (ex_dataset golden_distribution None) \/
                  pseudo_init seq_sum ["case01"%string] "/data" golden_catalog
                    None None golden_distribution 0
                  = inr (ex_dataset golden_distribution None))
    by (left; vm_compute; reflexivity).
  split; [exact (proj1 (H 0%Z Hinit)) |].
  split; [exact (proj2 (H 0%Z Hinit)) | exact (proj2 (H 5%Z Hinit))].
Defined.
